(** * SENTIO prober control: the vision command group

    A shallow embedding of
    [sentio_prober_control/Sentio/CommandGroups/VisionCommandGroup.py]
    and the properties of its methods.

    Layout:
    - [Py]: the Python built-ins the methods call ([str.split],
      [str.strip], [str.upper], [float]);
    - [Channel]: the collaborators that live outside the file (the
      communicator, [Response], [ProberException]) and the monad that threads
      the channel and the file system through a call;
    - [Enumerations], [Library]: the vocabulary and the library functions the
      methods are parameterised by, and [Sample], a concrete instance of both
      to run the methods on;
    - [Vision]: the methods of [VisionCommandGroup], one definition each;
    - [Notions], [Run]: what the properties are stated with;
    - [PyFacts], [Properties]: the proofs. *)

From Stdlib Require Import ZArith List String Ascii Bool Lia SpecFloat.
From stdpp Require Import base option list strings pretty gmap.
Import ListNotations.

Local Open Scope string_scope.
Local Open Scope list_scope.

(** ** Python built-ins *)

Module Py.

(** Text on the wire is ASCII; a [str] is a list of 7-bit characters held in
    [string].  The functions below follow CPython on that range. *)

(** [str.isspace] on one ASCII character: TAB..CR, FS..US and SPACE. *)
Definition isspace (c : ascii) : bool :=
  let n := nat_of_ascii c in
  ((9 <=? n)%nat && (n <=? 13)%nat) || ((28 <=? n)%nat && (n <=? 32)%nat).

Definition upper_char (c : ascii) : ascii :=
  let n := nat_of_ascii c in
  if ((97 <=? n)%nat && (n <=? 122)%nat) then ascii_of_nat (n - 32) else c.

Definition lower_char (c : ascii) : ascii :=
  let n := nat_of_ascii c in
  if ((65 <=? n)%nat && (n <=? 90)%nat) then ascii_of_nat (n + 32) else c.

Fixpoint map_string (f : ascii -> ascii) (s : string) : string :=
  match s with
  | EmptyString => EmptyString
  | String c s' => String (f c) (map_string f s')
  end.

(** [s.upper()], [s.lower()], [s.capitalize()]. *)
Definition upper (s : string) : string := map_string upper_char s.
Definition lower (s : string) : string := map_string lower_char s.
Definition capitalize (s : string) : string :=
  match s with
  | EmptyString => EmptyString
  | String c s' => String (upper_char c) (lower s')
  end.

(** [s.lstrip()], [s.rstrip()], [s.strip()] with no argument. *)
Fixpoint lstrip (s : string) : string :=
  match s with
  | EmptyString => EmptyString
  | String c s' => if isspace c then lstrip s' else s
  end.

Fixpoint rstrip (s : string) : string :=
  match s with
  | EmptyString => EmptyString
  | String c s' =>
      match rstrip s' with
      | EmptyString => if isspace c then EmptyString else String c EmptyString
      | r => String c r
      end
  end.

Definition strip (s : string) : string := rstrip (lstrip s).

(** The whitespace [float] skips around a number in an ASCII [str]: C's
    [isspace], that is TAB..CR and SPACE, without the separators FS..US that
    [str.strip] also removes. *)
Definition float_isspace (c : ascii) : bool :=
  let n := nat_of_ascii c in
  ((9 <=? n)%nat && (n <=? 13)%nat) || (n =? 32)%nat.

Fixpoint float_lstrip (s : string) : string :=
  match s with
  | EmptyString => EmptyString
  | String c s' => if float_isspace c then float_lstrip s' else s
  end.

Fixpoint float_rstrip (s : string) : string :=
  match s with
  | EmptyString => EmptyString
  | String c s' =>
      match float_rstrip s' with
      | EmptyString =>
          if float_isspace c then EmptyString else String c EmptyString
      | r => String c r
      end
  end.

Definition float_strip (s : string) : string := float_rstrip (float_lstrip s).

(** [s.split()] with no argument: the words between runs of whitespace. *)
Fixpoint words (s : string) : list string :=
  match s with
  | EmptyString => []
  | String c s' =>
      if isspace c then words s'
      else
        match s' with
        | EmptyString => [String c EmptyString]
        | String d _ =>
            if isspace d then String c EmptyString :: words s'
            else match words s' with
                 | t :: ts => String c t :: ts
                 | [] => [String c EmptyString]
                 end
        end
  end.

(** [s.split(sep)] for a one-character separator: one field more than there
    are separators, so the empty string gives one empty field. *)
Fixpoint split (sep : ascii) (s : string) : list string :=
  match s with
  | EmptyString => [EmptyString]
  | String c s' =>
      if Ascii.eqb c sep then EmptyString :: split sep s'
      else match split sep s' with
           | t :: ts => String c t :: ts
           | [] => [String c EmptyString]
           end
  end.

(** *** Numbers *)

(** A Python [float] is an IEEE 754 binary64 value. *)
Definition prec : Z := 53.
Definition emax : Z := 1024.
Definition pyfloat : Type := spec_float.

(** The numbers a method handles: [int] objects and [float] objects. *)
Inductive pynum : Type :=
  | PyInt (n : Z)
  | PyFloat (x : pyfloat).

(** Python's [==] between an [int] and a [float] compares the exact values. *)
Definition int_eq_float (n : Z) (x : pyfloat) : bool :=
  match x with
  | S754_zero _ => (n =? 0)%Z
  | S754_finite s m e =>
      let v := if s then Z.neg m else Z.pos m in
      if (0 <=? e)%Z then (n =? v * 2 ^ e)%Z else (n * 2 ^ (- e) =? v)%Z
  | _ => false
  end.

Definition py_eqb (a b : pynum) : bool :=
  match a, b with
  | PyInt m, PyInt n => (m =? n)%Z
  | PyFloat x, PyFloat y => SFeqb x y
  | PyInt n, PyFloat x | PyFloat x, PyInt n => int_eq_float n x
  end.

Definition is_digit (c : ascii) : bool :=
  let n := nat_of_ascii c in (48 <=? n)%nat && (n <=? 57)%nat.

Definition digit_val (c : ascii) : Z := Z.of_nat (nat_of_ascii c) - 48.

Definition Z_of_digits (ds : list ascii) : Z :=
  fold_left (fun acc c => 10 * acc + digit_val c)%Z ds 0%Z.

(** [digitpart ::= digit (["_"] digit)*]: the digits read (underscores
    dropped) and the remaining input.  [digits_more] continues after a
    digit. *)
Fixpoint digits_more (s : list ascii) : list ascii * list ascii :=
  match s with
  | c :: s' =>
      if is_digit c then
        let (ds, r) := digits_more s' in (c :: ds, r)
      else if Ascii.eqb c "_" then
        match s' with
        | d :: s'' =>
            if is_digit d then let (ds, r) := digits_more s'' in (d :: ds, r)
            else ([], s)
        | [] => ([], s)
        end
      else ([], s)
  | [] => ([], [])
  end.

Definition digitpart (s : list ascii) : list ascii * list ascii :=
  match s with
  | c :: s' =>
      if is_digit c then let (ds, r) := digits_more s' in (c :: ds, r)
      else ([], s)
  | [] => ([], [])
  end.

Definition parse_sign (s : list ascii) : bool * list ascii :=
  match s with
  | c :: r =>
      if Ascii.eqb c "-" then (true, r)
      else if Ascii.eqb c "+" then (false, r)
      else (false, s)
  | [] => (false, s)
  end.

(** The binary64 value nearest to [(-1)^neg * m * 10^e] (ties to even). *)
Definition decimal_to_float (neg : bool) (m e : Z) : pyfloat :=
  match m with
  | Zpos p =>
      if (0 <=? e)%Z then
        binary_normalize prec emax
          ((if neg then Z.neg p else Z.pos p) * 10 ^ e)%Z 0%Z false
      else
        SFdiv prec emax (S754_finite neg p 0)
          (S754_finite false (Z.to_pos (10 ^ (- e))) 0)
  | _ => S754_zero neg
  end.

(** [float(s)] for a [str]: the whitespace of [float_isspace] around the
    number is ignored, then
    [[sign] ("inf" | "infinity" | "nan" | floatnumber)], the words in any
    case.  [None] stands for [ValueError]. *)
Definition float (s : string) : option pyfloat :=
  let (neg, body) := parse_sign (list_ascii_of_string (float_strip s)) in
  let word := string_of_list_ascii (map lower_char body) in
  if (word =? "inf") || (word =? "infinity") then Some (S754_infinity neg)
  else if (word =? "nan") then Some S754_nan
  else
    let (ip, r1) := digitpart body in
    let (fp, r2) :=
      match r1 with
      | c :: r => if Ascii.eqb c "." then digitpart r else ([], r1)
      | [] => ([], r1)
      end in
    match ip ++ fp with
    | [] => None
    | mant =>
        let scale := (- Z.of_nat (length fp))%Z in
        match r2 with
        | [] => Some (decimal_to_float neg (Z_of_digits mant) scale)
        | c :: r3 =>
            if Ascii.eqb (lower_char c) "e" then
              let (eneg, r4) := parse_sign r3 in
              match digitpart r4 with
              | (d :: ds, []) =>
                  let ex := Z_of_digits (d :: ds) in
                  Some (decimal_to_float neg (Z_of_digits mant)
                          ((if eneg then - ex else ex) + scale)%Z)
              | _ => None
              end
            else None
        end
    end.

End Py.

(** ** The channel, the response object and the call monad *)

Module Channel.

(** Modelled from the spec: [Response] ([Sentio/Response.py]) is not among the
    sources.  A response line is kept as its interpretation: the status the
    instrument reports ([ok]) and the payload text ([message]). *)
Record Response : Type := mkResponse { ok : bool; message : string }.

(** Modelled from the spec: [ProberException] ([Sentio/ProberBase.py]) is not
    among the sources; it is the domain error and carries the instrument's
    message text.  The other exceptions are the interpreter's: [float] and
    [base64] on bad text, an index or a key that is not there, [open] on a
    path that cannot be written, and the communicator when no line
    arrives. *)
Inductive exn : Type :=
  | ProberException (msg : string)
  | ValueError
  | IndexError
  | KeyError
  | Base64Error
  | OSError
  | ChannelError.

Inductive result (A : Type) : Type :=
  | Return (a : A)
  | Raise (e : exn).
Arguments Return {A} a.
Arguments Raise {A} e.

(** What happened on the channel, in order. *)
Inductive event : Type :=
  | Send (cmd : string)
  | ReadLine (r : Response).

(** The world a call runs in: the response lines still to be read, the log of
    the channel, and the local file system. *)
Record World : Type := mkWorld {
  incoming : list Response;
  trace : list event;
  files : gmap string (list Byte.byte);
  writable : string -> bool
}.

(** A call is a function of the world that returns or raises; what it did to
    the world stays done when it raises. *)
Definition M (A : Type) : Type := World -> result A * World.

Definition ret {A} (a : A) : M A := fun w => (Return a, w).
Definition raise {A} (e : exn) : M A := fun w => (Raise e, w).
Definition bind {A B} (m : M A) (k : A -> M B) : M B :=
  fun w =>
    match m w with
    | (Return a, w') => k a w'
    | (Raise e, w') => (Raise e, w')
    end.

(** Modelled from the spec: the communicator ([CommunicatorBase]) is not among
    the sources.  [send] writes one command line; [read_line] takes the next
    response line, and fails when none arrives. *)
Definition send (cmd : string) : M unit :=
  fun w =>
    (Return tt,
     mkWorld (incoming w) (trace w ++ [Send cmd]) (files w) (writable w)).

Definition read_line : M Response :=
  fun w =>
    match incoming w with
    | r :: rest =>
        (Return r,
         mkWorld rest (trace w ++ [ReadLine r]) (files w) (writable w))
    | [] => (Raise ChannelError, w)
    end.

(** Modelled from the spec: [Response.check_resp], the shared response-check
    primitive, is not among the sources.  It inspects the status and raises
    the domain error with the instrument's message text when the instrument
    reports failure; otherwise it hands the response back. *)
Definition check_resp (r : Response) : M Response :=
  if ok r then ret r else raise (ProberException (message r)).

(** Modelled from the spec: [SentioProber.send_cmd], the request/response
    primitive of the owning facade, is not among the sources: one command
    line out, one response line in, checked. *)
Definition send_cmd (cmd : string) : M Response :=
  bind (send cmd) (fun _ => bind read_line check_resp).

(** [with open(path, "wb") as f: f.write(data)]. *)
Definition write_file (path : string) (data : list Byte.byte) : M unit :=
  fun w =>
    if writable w path then
      (Return tt,
       mkWorld (incoming w) (trace w) (<[path := data]> (files w)) (writable w))
    else (Raise OSError, w).

(** Observations of a trace. *)
Definition sent_of (e : event) : option string :=
  match e with Send c => Some c | ReadLine _ => None end.

Definition sent (w : World) : list string := omap sent_of (trace w).

Definition is_read (e : event) : bool :=
  match e with ReadLine _ => true | Send _ => false end.

Definition reads (w : World) : nat :=
  length (List.filter is_read (trace w)).

End Channel.

Declare Scope call_scope.
Delimit Scope call_scope with call.
Notation "x <- m ;; k" := (Channel.bind m (fun x => k))
  (at level 100, m at next level, right associativity) : call_scope.
Notation "m ;;; k" := (Channel.bind m (fun _ => k))
  (at level 100, right associativity) : call_scope.

(** ** What the methods take from outside the file *)

(** An enumeration renders its members on the wire with [to_string]. *)
Class ToString (E : Type) : Type := to_string : E -> string.

(** Modelled from the spec: [Sentio/Enumerations.py] is not among the sources.
    The methods use every enumeration through [to_string] only, except:
    [AutoAlignCmd] and [SnapshotLocation], whose argument is compared with one
    named member, and [MoveAxis], whose members are looked up by name
    ([MoveAxis[name]], a [KeyError] when there is none). *)
Class Enumerations : Type := {
  AutoAlignCmd : Type;
  AlignOnly : AutoAlignCmd;
  AutoAlignCmd_eq_dec :: EqDecision AutoAlignCmd;
  AutoAlignCmd_to_string :: ToString AutoAlignCmd;
  AutoFocusCmd : Type;
  AutoFocusCmd_to_string :: ToString AutoFocusCmd;
  CameraMountPoint : Type;
  CameraMountPoint_to_string :: ToString CameraMountPoint;
  DetectionAlgorithm : Type;
  DetectionAlgorithm_to_string :: ToString DetectionAlgorithm;
  DetectionCoordindates : Type;
  DetectionCoordindates_to_string :: ToString DetectionCoordindates;
  DieCompensationMode : Type;
  DieCompensationMode_to_string :: ToString DieCompensationMode;
  DieCompensationType : Type;
  DieCompensationType_to_string :: ToString DieCompensationType;
  FindPatternReference : Type;
  FindPatternReference_to_string :: ToString FindPatternReference;
  PtpaFindTipsMode : Type;
  PtpaFindTipsMode_to_string :: ToString PtpaFindTipsMode;
  PtpaType : Type;
  PtpaType_to_string :: ToString PtpaType;
  SnapshotLocation : Type;
  Local : SnapshotLocation;
  SnapshotLocation_eq_dec :: EqDecision SnapshotLocation;
  SnapshotType : Type;
  SnapshotType_to_string :: ToString SnapshotType;
  MoveAxis : Type;
  MoveAxis_by_name : string -> option MoveAxis
}.

(** The two library functions whose text-level behaviour the methods rely on
    but do not fix: [base64.b64decode] ([None] for [binascii.Error]) and the
    formatting of a [float] inside a format string. *)
Class Library : Type := {
  b64decode : string -> option (list Byte.byte);
  str_float : Py.pyfloat -> string
}.

(** ** A concrete vocabulary to run the methods on *)

Module Sample.

(** A few members per enumeration: the defaults the source names
    ([AlignOnly], [Focus], [ProbeDetector], [Roi], [CenterOfRoi], [CameraRaw],
    [Prober], [Local]) and the cameras of its documentation, with one more
    member where a run needs a second one.  The wire strings are the member
    names in lower case, for illustration. *)
Inductive auto_align_cmd : Type := align_only | update_die_size.
Inductive auto_focus_cmd : Type := focus.
Inductive camera_mount_point : Type := scope | offaxis.
Inductive detection_algorithm : Type := probe_detector.
Inductive detection_coordinates : Type := roi.
Inductive die_compensation_mode : Type := lateral.
Inductive die_compensation_type : Type := die_align.
Inductive find_pattern_reference : Type := center_of_roi.
Inductive ptpa_find_tips_mode : Type := on_axis.
Inductive ptpa_type : Type := off_axis_ptpa.
Inductive snapshot_location : Type := prober | local.
Inductive snapshot_type : Type := camera_raw.
Inductive move_axis : Type := axis_x | axis_y | axis_z.

#[global] Instance auto_align_cmd_eq_dec : EqDecision auto_align_cmd.
Proof. solve_decision. Defined.
#[global] Instance snapshot_location_eq_dec : EqDecision snapshot_location.
Proof. solve_decision. Defined.

Definition move_axis_by_name (name : string) : option move_axis :=
  if String.eqb name "X" then Some axis_x
  else if String.eqb name "Y" then Some axis_y
  else if String.eqb name "Z" then Some axis_z
  else None.

Definition enums : Enumerations := {|
  AutoAlignCmd := auto_align_cmd;
  AlignOnly := align_only;
  AutoAlignCmd_to_string :=
    fun m => match m with
             | align_only => "alignonly"
             | update_die_size => "updatediesize"
             end;
  AutoFocusCmd := auto_focus_cmd;
  AutoFocusCmd_to_string := fun _ => "focus";
  CameraMountPoint := camera_mount_point;
  CameraMountPoint_to_string :=
    fun c => match c with scope => "scope" | offaxis => "offaxis" end;
  DetectionAlgorithm := detection_algorithm;
  DetectionAlgorithm_to_string := fun _ => "probedetector";
  DetectionCoordindates := detection_coordinates;
  DetectionCoordindates_to_string := fun _ => "roi";
  DieCompensationMode := die_compensation_mode;
  DieCompensationMode_to_string := fun _ => "lateral";
  DieCompensationType := die_compensation_type;
  DieCompensationType_to_string := fun _ => "diealign";
  FindPatternReference := find_pattern_reference;
  FindPatternReference_to_string := fun _ => "centerofroi";
  PtpaFindTipsMode := ptpa_find_tips_mode;
  PtpaFindTipsMode_to_string := fun _ => "onaxis";
  PtpaType := ptpa_type;
  PtpaType_to_string := fun _ => "offaxis";
  SnapshotLocation := snapshot_location;
  Local := local;
  SnapshotType := snapshot_type;
  SnapshotType_to_string := fun _ => "cameraraw";
  MoveAxis := move_axis;
  MoveAxis_by_name := move_axis_by_name
|}.

(** A decoder for canonical base64 text (RFC 4648 alphabet, padded to a
    multiple of four characters). *)
Definition b64_value (c : ascii) : option N :=
  let n := N_of_ascii c in
  if ((65 <=? n) && (n <=? 90))%N then Some (n - 65)%N
  else if ((97 <=? n) && (n <=? 122))%N then Some (n - 71)%N
  else if ((48 <=? n) && (n <=? 57))%N then Some (n + 4)%N
  else if (n =? 43)%N then Some 62%N
  else if (n =? 47)%N then Some 63%N
  else None.

Definition byte_of (n : N) : option Byte.byte := Byte.of_N (n mod 256)%N.

Fixpoint b64_quads (cs : list ascii) : option (list Byte.byte) :=
  match cs with
  | [] => Some []
  | a :: b :: c :: d :: rest =>
      va ← b64_value a; vb ← b64_value b;
      b0 ← byte_of (va * 4 + vb / 16);
      if Ascii.eqb c "=" then
        if Ascii.eqb d "=" then
          match rest with [] => Some [b0] | _ => None end
        else None
      else
        vc ← b64_value c;
        b1 ← byte_of (vb * 16 + vc / 4);
        if Ascii.eqb d "=" then
          match rest with [] => Some [b0; b1] | _ => None end
        else
          vd ← b64_value d;
          b2 ← byte_of (vc * 64 + vd);
          tl ← b64_quads rest;
          Some (b0 :: b1 :: b2 :: tl)
  | _ => None
  end.

(** The exact decimal expansion of a float, which is what Python prints for
    the values with a short one (0.5, 2.0, 70.0). *)
Definition frac_digits (num : Z) (k : nat) : string :=
  let fix go (k : nat) (num : Z) (den : Z) : string :=
    match k with
    | O => ""
    | S k' =>
        if (num =? 0)%Z then ""
        else String (ascii_of_nat (48 + Z.to_nat (10 * num / den)))
                    (go k' ((10 * num) mod den)%Z den)
    end in
  match go k num (2 ^ Z.of_nat k)%Z with
  | "" => "0"
  | ds => ds
  end.

Definition exact_decimal (x : Py.pyfloat) : string :=
  match x with
  | S754_zero s => if s then "-0.0" else "0.0"
  | S754_infinity s => if s then "-inf" else "inf"
  | S754_nan => "nan"
  | S754_finite s m e =>
      (if s then "-" else "") +:+
      (if (0 <=? e)%Z then pretty (Z.pos m * 2 ^ e)%Z +:+ ".0"
       else
         let den := (2 ^ (- e))%Z in
         pretty (Z.pos m / den)%Z +:+ "." +:+
         frac_digits (Z.pos m mod den)%Z (Z.to_nat (- e)))
  end.

Definition library : Library := {|
  b64decode := fun s => b64_quads (list_ascii_of_string s);
  str_float := exact_decimal
|}.

End Sample.

(** ** The methods of [VisionCommandGroup] *)

Module Vision.
Import Py Channel.
Local Open Scope call_scope.

Section VisionCommandGroup.
Context {enums : Enumerations} {lib : Library}.

(** Formatting of an argument inside a format string. *)
Definition str_bool (b : bool) : string := if b then "True" else "False".
Definition str_int (n : Z) : string := pretty n.
Definition str_num (v : pynum) : string :=
  match v with
  | PyInt n => str_int n
  | PyFloat x => str_float x
  end.

(** [l[i]], [float(s)] and [float(tok[i])] with their exceptions. *)
Definition index {A} (l : list A) (i : nat) : M A :=
  match l !! i with
  | Some x => ret x
  | None => raise IndexError
  end.

Definition to_float (s : string) : M pyfloat :=
  match float s with
  | Some x => ret x
  | None => raise ValueError
  end.

Definition float_at (tok : list string) (i : nat) : M pyfloat :=
  s <- index tok i ;; to_float s.

(** [Response.check_resp(self.comm.read_line())]. *)
Definition read_checked : M Response := bind read_line check_resp.

Definition align_wafer (mode : AutoAlignCmd) : M unit :=
  (if decide (mode = AlignOnly) then send "vis:align_wafer"
   else send ("vis:align_wafer " +:+ to_string mode)) ;;;
  _ <- read_checked ;;
  ret tt.

Definition align_die (threshold : pynum) : M (pyfloat * pyfloat * pyfloat) :=
  send ("vis:align_die " +:+ str_num threshold) ;;;
  resp <- read_checked ;;
  let tok := split "," (message resp) in
  a <- float_at tok 0 ;;
  b <- float_at tok 1 ;;
  c <- float_at tok 2 ;;
  ret (a, b, c).

Definition auto_focus (af_cmd : AutoFocusCmd) : M (pyfloat * MoveAxis) :=
  resp <- send_cmd ("vis:auto_focus " +:+ to_string af_cmd) ;;
  let tok := split "," (message resp) in
  height <- float_at tok 0 ;;
  name <- index tok 1 ;;
  match MoveAxis_by_name (capitalize name) with
  | Some axis => ret (height, axis)
  | None => raise KeyError
  end.

Definition camera_synchronize : M (pyfloat * pyfloat * pyfloat) :=
  send "vis:camera_synchronize" ;;;
  resp <- read_checked ;;
  let tok := split "," (message resp) in
  a <- float_at tok 0 ;;
  b <- float_at tok 1 ;;
  c <- float_at tok 2 ;;
  ret (a, b, c).

(** The loop of [detect_probetips] over [str_tips], from the record at hand
    to the last.  [cid] and [found_tips] are the two variables the loop
    updates; both are bound before the loop and live across its rounds. *)
Fixpoint tips_loop (str_tips : list string) (cid : pynum)
    (found_tips : list (list pynum)) : M (list (list pynum)) :=
  match str_tips with
  | [] => ret found_tips
  | s :: rest =>
      let str_tip := split " " (strip s) in
      let num_col := length str_tip in
      x <- float_at str_tip 0 ;;
      y <- float_at str_tip 1 ;;
      w <- float_at str_tip 2 ;;
      h <- float_at str_tip 3 ;;
      q <- float_at str_tip 4 ;;
      cid <- (if (6 <=? num_col)%nat
              then (v <- float_at str_tip 5 ;; ret (PyFloat v))
              else ret cid) ;;
      tips_loop rest cid
        (found_tips ++
           [[PyFloat x; PyFloat y; PyFloat w; PyFloat h; PyFloat q; cid]])
  end.

Definition detect_probetips (camera : CameraMountPoint)
    (detector : DetectionAlgorithm) (coords : DetectionCoordindates)
    : M (list (list pynum)) :=
  send ("vis:detect_probetips " +:+ to_string camera +:+ ", " +:+
        to_string detector +:+ ", " +:+ to_string coords) ;;;
  resp <- read_checked ;;
  let str_tips := split "," (message resp) in
  tips_loop str_tips (PyInt 0) [].

Definition enable_follow_mode (stat : bool) : M unit :=
  send ("vis:enable_follow_mode " +:+ str_bool stat) ;;;
  _ <- read_checked ;;
  ret tt.

Definition find_home : M unit :=
  send "vis:find_home" ;;;
  _ <- read_checked ;;
  ret tt.

Definition find_pattern (name : string) (threshold : pynum)
    (pattern_index : Z) (reference : FindPatternReference)
    : M (pyfloat * pyfloat * pyfloat * pyfloat) :=
  send ("vis:find_pattern " +:+ name +:+ ", " +:+ str_num threshold +:+ ", "
        +:+ str_int pattern_index +:+ ", " +:+ to_string reference) ;;;
  resp <- read_checked ;;
  let tok := split "," (message resp) in
  a <- float_at tok 0 ;;
  b <- float_at tok 1 ;;
  c <- float_at tok 2 ;;
  d <- float_at tok 3 ;;
  ret (a, b, c, d).

Definition has_camera (camera : CameraMountPoint) : M bool :=
  send ("vis:has_camera " +:+ to_string camera) ;;;
  resp <- read_checked ;;
  ret (String.eqb (upper (message resp)) "1").

Definition switch_all_lights (stat : bool) : M unit :=
  send ("vis:switch_all_lights " +:+ str_bool stat).

Definition remove_probetip_marker : M unit :=
  send "vis:remove_probetip_marker" ;;;
  _ <- read_checked ;;
  ret tt.

Definition match_tips (ptpa_type : PtpaType) : M (pyfloat * pyfloat) :=
  send ("vis:match_tips " +:+ to_string ptpa_type) ;;;
  resp <- read_checked ;;
  let tok := split "," (message resp) in
  a <- float_at tok 0 ;;
  b <- float_at tok 1 ;;
  ret (a, b).

Definition snap_image (file : string) (what : SnapshotType)
    (where_ : SnapshotLocation) : M unit :=
  if decide (where_ = Local) then
    send ("vis:snap_image **download**, " +:+ to_string what) ;;;
    resp <- read_checked ;;
    jpeg_data <- (match b64decode (message resp) with
                  | Some data => ret data
                  | None => raise Base64Error
                  end) ;;
    write_file file jpeg_data
  else
    send ("vis:snap_image " +:+ file +:+ ", " +:+ to_string what) ;;;
    _ <- read_checked ;;
    ret tt.

Definition switch_light (camera : CameraMountPoint) (stat : bool) : M unit :=
  send ("vis:switch_light " +:+ to_string camera +:+ ", " +:+ str_bool stat) ;;;
  _ <- read_checked ;;
  ret tt.

Definition switch_camera (camera : CameraMountPoint) : M unit :=
  send ("vis:switch_camera " +:+ to_string camera).

Definition ptpa_find_pads (row column : Z)
    : M (pyfloat * pyfloat * pyfloat) :=
  send ("vis:execute_ptpa_find_pads " +:+ str_int row +:+ "," +:+
        str_int column) ;;;
  resp <- read_checked ;;
  let tok := split "," (message resp) in
  a <- float_at tok 0 ;;
  b <- float_at tok 1 ;;
  c <- float_at tok 2 ;;
  ret (a, b, c).

Definition ptpa_find_tips (ptpa_mode : PtpaFindTipsMode)
    : M (pyfloat * pyfloat * pyfloat) :=
  send ("vis:ptpa_find_tips " +:+ to_string ptpa_mode) ;;;
  resp <- read_checked ;;
  let tok := split "," (message resp) in
  a <- float_at tok 0 ;;
  b <- float_at tok 1 ;;
  c <- float_at tok 2 ;;
  ret (a, b, c).

Definition start_fast_track : M Response :=
  send_cmd "vis:start_fast_track".

Definition start_execute_compensation (comp_type : DieCompensationType)
    (comp_mode : DieCompensationMode) : M Response :=
  send ("vis:compensation:start_execute " +:+ to_string comp_type +:+ "," +:+
        to_string comp_mode) ;;;
  resp <- read_checked ;;
  if negb (ok resp) then raise (ProberException (message resp))
  else ret resp.

Definition find_thermal_die_size : M (pyfloat * pyfloat) :=
  send "vis:find_thermal_die_size" ;;;
  resp <- read_checked ;;
  let tok := split "," (message resp) in
  a <- float_at tok 0 ;;
  b <- float_at tok 1 ;;
  ret (a, b).

Definition get_lens_zoom_level : M pyfloat :=
  send "vis:get_lens_zoom_level" ;;;
  resp <- read_checked ;;
  to_float (message resp).

Definition set_lens_zoom_level (level : pynum) : M unit :=
  send ("vis:set_lens_zoom_level " +:+ str_num level) ;;;
  _ <- read_checked ;;
  ret tt.

Definition get_light_status (camera : CameraMountPoint) : M bool :=
  send ("vis:get_light_status " +:+ to_string camera) ;;;
  resp <- read_checked ;;
  ret (String.eqb (lower (strip (message resp))) "1").

(** *** The public methods as one interface *)

(** A call of a public method with its arguments. *)
Inductive call : Type :=
  | AlignWafer (mode : AutoAlignCmd)
  | AlignDie (threshold : pynum)
  | AutoFocus (af_cmd : AutoFocusCmd)
  | CameraSynchronize
  | DetectProbetips (camera : CameraMountPoint) (detector : DetectionAlgorithm)
      (coords : DetectionCoordindates)
  | EnableFollowMode (stat : bool)
  | FindHome
  | FindPattern (name : string) (threshold : pynum) (pattern_index : Z)
      (reference : FindPatternReference)
  | HasCamera (camera : CameraMountPoint)
  | SwitchAllLights (stat : bool)
  | RemoveProbetipMarker
  | MatchTips (ptpa_type : PtpaType)
  | SnapImage (file : string) (what : SnapshotType) (where_ : SnapshotLocation)
  | SwitchLight (camera : CameraMountPoint) (stat : bool)
  | SwitchCamera (camera : CameraMountPoint)
  | PtpaFindPads (row column : Z)
  | PtpaFindTips (ptpa_mode : PtpaFindTipsMode)
  | StartFastTrack
  | StartExecuteCompensation (comp_type : DieCompensationType)
      (comp_mode : DieCompensationMode)
  | FindThermalDieSize
  | GetLensZoomLevel
  | SetLensZoomLevel (level : pynum)
  | GetLightStatus (camera : CameraMountPoint).

(** What a call hands back. *)
Inductive retval : Type :=
  | RNone
  | RBool (b : bool)
  | RFloats (xs : list pyfloat)
  | RFocus (height : pyfloat) (axis : MoveAxis)
  | RTips (tips : list (list pynum))
  | RResponse (resp : Response).

Definition fmap_call {A B} (f : A -> B) (m : M A) : M B :=
  a <- m ;; ret (f a).

Definition of_pair (p : pyfloat * pyfloat) : retval :=
  let '(a, b) := p in RFloats [a; b].
Definition of_triple (p : pyfloat * pyfloat * pyfloat) : retval :=
  let '(a, b, c) := p in RFloats [a; b; c].
Definition of_quad (p : pyfloat * pyfloat * pyfloat * pyfloat) : retval :=
  let '(a, b, c, d) := p in RFloats [a; b; c; d].

Definition invoke (c : call) : M retval :=
  match c with
  | AlignWafer mode => fmap_call (fun _ => RNone) (align_wafer mode)
  | AlignDie threshold => fmap_call of_triple (align_die threshold)
  | AutoFocus af_cmd =>
      fmap_call (fun p => RFocus (fst p) (snd p)) (auto_focus af_cmd)
  | CameraSynchronize => fmap_call of_triple camera_synchronize
  | DetectProbetips camera detector coords =>
      fmap_call RTips (detect_probetips camera detector coords)
  | EnableFollowMode stat =>
      fmap_call (fun _ => RNone) (enable_follow_mode stat)
  | FindHome => fmap_call (fun _ => RNone) find_home
  | FindPattern name threshold pattern_index reference =>
      fmap_call of_quad (find_pattern name threshold pattern_index reference)
  | HasCamera camera => fmap_call RBool (has_camera camera)
  | SwitchAllLights stat => fmap_call (fun _ => RNone) (switch_all_lights stat)
  | RemoveProbetipMarker => fmap_call (fun _ => RNone) remove_probetip_marker
  | MatchTips ptpa_type => fmap_call of_pair (match_tips ptpa_type)
  | SnapImage file what where_ =>
      fmap_call (fun _ => RNone) (snap_image file what where_)
  | SwitchLight camera stat =>
      fmap_call (fun _ => RNone) (switch_light camera stat)
  | SwitchCamera camera => fmap_call (fun _ => RNone) (switch_camera camera)
  | PtpaFindPads row column => fmap_call of_triple (ptpa_find_pads row column)
  | PtpaFindTips ptpa_mode => fmap_call of_triple (ptpa_find_tips ptpa_mode)
  | StartFastTrack => fmap_call RResponse start_fast_track
  | StartExecuteCompensation comp_type comp_mode =>
      fmap_call RResponse (start_execute_compensation comp_type comp_mode)
  | FindThermalDieSize => fmap_call of_pair find_thermal_die_size
  | GetLensZoomLevel => fmap_call (fun x => RFloats [x]) get_lens_zoom_level
  | SetLensZoomLevel level =>
      fmap_call (fun _ => RNone) (set_lens_zoom_level level)
  | GetLightStatus camera => fmap_call RBool (get_light_status camera)
  end.

(** The methods that pass the response line they read to [check_resp], in
    their own body or through [send_cmd]: all but the two that read none. *)
Definition checked (c : call) : bool :=
  match c with
  | SwitchAllLights _ | SwitchCamera _ => false
  | _ => true
  end.

(** *** The payload each method expects *)

(** The first [n] comma-separated fields are there and numeric. *)
Definition numeric_at (tok : list string) (i : nat) : bool :=
  match tok !! i with
  | Some s => bool_decide (is_Some (float s))
  | None => false
  end.

Definition numeric_fields (n : nat) (tok : list string) : bool :=
  forallb (numeric_at tok) (seq 0 n).

(** One tip record: five numeric tokens, and a numeric sixth when there is
    one. *)
Definition tip_record (s : string) : bool :=
  let str_tip := split " " (strip s) in
  numeric_fields 5 str_tip &&
  ((length str_tip <? 6)%nat || numeric_at str_tip 5).

Definition axis_at (tok : list string) (i : nat) : bool :=
  match tok !! i with
  | Some s => bool_decide (is_Some (MoveAxis_by_name (capitalize s)))
  | None => false
  end.

(** What the parsing code of each method accepts, read off the methods: the
    first fields of its return arity numeric, every record a [tip_record], a
    numeric height and an axis name, text that decodes; any text for the
    methods that do not look at the payload. *)
Definition parses (c : call) (payload : string) : bool :=
  let tok := split "," payload in
  match c with
  | AlignDie _ | CameraSynchronize | PtpaFindPads _ _ | PtpaFindTips _ =>
      numeric_fields 3 tok
  | FindPattern _ _ _ _ => numeric_fields 4 tok
  | MatchTips _ | FindThermalDieSize => numeric_fields 2 tok
  | GetLensZoomLevel => bool_decide (is_Some (float payload))
  | AutoFocus _ => numeric_at tok 0 && axis_at tok 1
  | DetectProbetips _ _ _ => forallb tip_record tok
  | SnapImage _ _ where_ =>
      if decide (where_ = Local) then bool_decide (is_Some (b64decode payload))
      else true
  | _ => true
  end.

(** A response of exactly [n] comma fields, all numeric. *)
Definition fields_exactly (n : nat) (tok : list string) : bool :=
  (length tok =? n)%nat && numeric_fields n tok.

(** A tip record in the specification's words: whitespace-separated tokens,
    five mandatory numeric fields and an optional sixth. *)
Definition spec_tip_record (s : string) : bool :=
  let fields := words s in
  ((length fields =? 5)%nat || (length fields =? 6)%nat) &&
  forallb (fun t => bool_decide (is_Some (float t))) fields.

(** The payload shape the specification gives each method, in its words:
    a 3-field comma response that splits into at least three numeric fields
    for [align_die]; a 2-field response of a height and an axis name, the
    name up to case, for [auto_focus]; a comma-separated list of tip records,
    the empty response included, for [detect_probetips]; a 4-field numeric
    response for [find_pattern]; a single field for the two boolean
    operations; base64 text for the local snapshot; a response of the
    method's return arity for the other methods that return numbers; and
    no shape for the methods that return nothing. *)
Definition well_formed (c : call) (payload : string) : bool :=
  let tok := split "," payload in
  match c with
  | AlignDie _ => numeric_fields 3 tok
  | AutoFocus _ => (length tok =? 2)%nat && numeric_at tok 0 && axis_at tok 1
  | DetectProbetips _ _ _ =>
      String.eqb payload "" || forallb spec_tip_record tok
  | FindPattern _ _ _ _ => fields_exactly 4 tok
  | HasCamera _ | GetLightStatus _ => (length tok =? 1)%nat
  | SnapImage _ _ where_ =>
      if decide (where_ = Local) then bool_decide (is_Some (b64decode payload))
      else true
  | CameraSynchronize | PtpaFindPads _ _ | PtpaFindTips _ =>
      fields_exactly 3 tok
  | MatchTips _ | FindThermalDieSize => fields_exactly 2 tok
  | GetLensZoomLevel => fields_exactly 1 tok
  | _ => true
  end.

(** The specification's shape, with the one of [detect_probetips] as the
    method reads it: at least one record, the tokens of a record one space
    apart. *)
Definition well_formed_as_read (c : call) (payload : string) : bool :=
  match c with
  | DetectProbetips _ _ _ => forallb tip_record (split "," payload)
  | _ => well_formed c payload
  end.

(** The local path a call writes to, if any. *)
Definition writes_to (c : call) : option string :=
  match c with
  | SnapImage file _ where_ =>
      if decide (where_ = Local) then Some file else None
  | _ => None
  end.

End VisionCommandGroup.
End Vision.

(** ** Notions the properties are stated with *)

Module Notions.
Import Py.

(** Equality of two strings up to letter case. *)
Definition caseless_eqb (a b : string) : bool := String.eqb (lower a) (lower b).

(** No character of the string is whitespace. *)
Fixpoint no_space (s : string) : bool :=
  match s with
  | EmptyString => true
  | String c s' => negb (isspace c) && no_space s'
  end.

(** Every character of the string is whitespace. *)
Fixpoint all_space (s : string) : bool :=
  match s with
  | EmptyString => true
  | String c s' => isspace c && all_space s'
  end.

(** Every character of the string is whitespace that [float] skips. *)
Fixpoint all_float_space (s : string) : bool :=
  match s with
  | EmptyString => true
  | String c s' => float_isspace c && all_float_space s'
  end.

(** A payload that is one token: not empty, no whitespace in it. *)
Definition single_token (s : string) : bool :=
  negb (String.eqb s "") && no_space s.

Definition starts_space (s : string) : bool :=
  match s with
  | EmptyString => false
  | String c _ => isspace c
  end.

Fixpoint ends_space (s : string) : bool :=
  match s with
  | EmptyString => false
  | String c EmptyString => isspace c
  | String _ s' => ends_space s'
  end.

(** Whitespace at either end of the payload. *)
Definition surrounding_space (s : string) : bool :=
  starts_space s || ends_space s.

(** The float a decimal literal of the text denotes, as [float] reads it. *)
Definition lit (s : string) : pyfloat := default S754_nan (float s).

(** The world after one exchange: [cmd] went out, then the pending line [r]
    was read, leaving [rest] pending. *)
Definition exchanged (cmd : string) (r : Channel.Response)
    (rest : list Channel.Response) (w : Channel.World) : Channel.World :=
  Channel.mkWorld rest
    ((Channel.trace w ++ [Channel.Send cmd]) ++ [Channel.ReadLine r])
    (Channel.files w) (Channel.writable w).

(** The world after [cmd] went out and nothing was read. *)
Definition only_sent (cmd : string) (w : Channel.World) : Channel.World :=
  Channel.mkWorld (Channel.incoming w)
    (Channel.trace w ++ [Channel.Send cmd])
    (Channel.files w) (Channel.writable w).

(** The class id the loop of [detect_probetips] holds after the record [s],
    when it held [cid] before: the record's sixth token if it has one, else
    [cid] still. *)
Definition class_id_after (cid : pynum) (s : string) : pynum :=
  let str_tip := split " " (strip s) in
  if (6 <=? length str_tip)%nat then
    match str_tip !! 5%nat ≫= float with
    | Some v => PyFloat v
    | None => cid
    end
  else cid.

(** The class id the loop holds after a run of records, starting from
    [cid]. *)
Definition carried (cid : pynum) (records : list string) : pynum :=
  fold_left class_id_after records cid.

(** A computation that leaves the channel alone: nothing sent, nothing
    read. *)
Definition quiet {A} (m : Channel.M A) : Prop :=
  forall w,
    Channel.trace (snd (m w)) = Channel.trace w /\
    Channel.incoming (snd (m w)) = Channel.incoming w.

(** A world in which the lines [rs] are pending, nothing has happened on the
    channel, there are no files and every path can be written. *)
Definition fresh (rs : list Channel.Response) : Channel.World :=
  Channel.mkWorld rs [] ∅ (fun _ => true).

End Notions.

(** ** The methods on the sample vocabulary *)

Module Run.
Import Channel Vision.

Abbreviation has_camera' := (has_camera (enums := Sample.enums)).
Abbreviation get_light_status' := (get_light_status (enums := Sample.enums)).
Abbreviation align_wafer' := (align_wafer (enums := Sample.enums)).
Abbreviation snap_image' :=
  (snap_image (enums := Sample.enums) (lib := Sample.library)).
Abbreviation align_die' := (align_die (lib := Sample.library)).
Abbreviation start_execute_compensation' :=
  (start_execute_compensation (enums := Sample.enums)).
Abbreviation switch_camera' := (switch_camera (enums := Sample.enums)).
Abbreviation invoke' :=
  (invoke (enums := Sample.enums) (lib := Sample.library)).
Abbreviation SnapImage' := (SnapImage (enums := Sample.enums)).
Abbreviation auto_focus' := (auto_focus (enums := Sample.enums)).
Abbreviation detect_probetips' := (detect_probetips (enums := Sample.enums)).
Abbreviation FindPattern' := (FindPattern (enums := Sample.enums)).
Abbreviation AlignDie' := (AlignDie (enums := Sample.enums)).
Abbreviation HasCamera' := (HasCamera (enums := Sample.enums)).
Abbreviation SwitchAllLights' := (SwitchAllLights (enums := Sample.enums)).
Abbreviation DetectProbetips' := (DetectProbetips (enums := Sample.enums)).
Abbreviation well_formed' :=
  (well_formed (enums := Sample.enums) (lib := Sample.library)).
Abbreviation success := (mkResponse true).
Abbreviation failure := (mkResponse false).

End Run.

(** ** Notions for the behaviour of whole calls *)

Module Behaviour.
Import Py Channel Vision.

Section Behaviour.
Context {enums : Enumerations} {lib : Library}.

(** The command line a call puts on the wire. *)
Definition command_line (c : call) : string :=
  match c with
  | AlignWafer mode =>
      if decide (mode = AlignOnly) then "vis:align_wafer"
      else "vis:align_wafer " +:+ to_string mode
  | AlignDie threshold => "vis:align_die " +:+ str_num threshold
  | AutoFocus af_cmd => "vis:auto_focus " +:+ to_string af_cmd
  | CameraSynchronize => "vis:camera_synchronize"
  | DetectProbetips camera detector coords =>
      "vis:detect_probetips " +:+ to_string camera +:+ ", " +:+
      to_string detector +:+ ", " +:+ to_string coords
  | EnableFollowMode stat => "vis:enable_follow_mode " +:+ str_bool stat
  | FindHome => "vis:find_home"
  | FindPattern name threshold pattern_index reference =>
      "vis:find_pattern " +:+ name +:+ ", " +:+ str_num threshold +:+ ", "
      +:+ str_int pattern_index +:+ ", " +:+ to_string reference
  | HasCamera camera => "vis:has_camera " +:+ to_string camera
  | SwitchAllLights stat => "vis:switch_all_lights " +:+ str_bool stat
  | RemoveProbetipMarker => "vis:remove_probetip_marker"
  | MatchTips ptpa_type => "vis:match_tips " +:+ to_string ptpa_type
  | SnapImage file what where_ =>
      if decide (where_ = Local)
      then "vis:snap_image **download**, " +:+ to_string what
      else "vis:snap_image " +:+ file +:+ ", " +:+ to_string what
  | SwitchLight camera stat =>
      "vis:switch_light " +:+ to_string camera +:+ ", " +:+ str_bool stat
  | SwitchCamera camera => "vis:switch_camera " +:+ to_string camera
  | PtpaFindPads row column =>
      "vis:execute_ptpa_find_pads " +:+ str_int row +:+ "," +:+
      str_int column
  | PtpaFindTips ptpa_mode => "vis:ptpa_find_tips " +:+ to_string ptpa_mode
  | StartFastTrack => "vis:start_fast_track"
  | StartExecuteCompensation comp_type comp_mode =>
      "vis:compensation:start_execute " +:+ to_string comp_type +:+ "," +:+
      to_string comp_mode
  | FindThermalDieSize => "vis:find_thermal_die_size"
  | GetLensZoomLevel => "vis:get_lens_zoom_level"
  | SetLensZoomLevel level => "vis:set_lens_zoom_level " +:+ str_num level
  | GetLightStatus camera => "vis:get_light_status " +:+ to_string camera
  end.

(** The number of comma fields a call turns into floats, for the calls that
    return a tuple of floats. *)
Definition arity (c : call) : option nat :=
  match c with
  | AlignDie _ | CameraSynchronize | PtpaFindPads _ _ | PtpaFindTips _ =>
      Some 3%nat
  | FindPattern _ _ _ _ => Some 4%nat
  | MatchTips _ | FindThermalDieSize => Some 2%nat
  | _ => None
  end.

(** Reading the fields at the indices [idx], in that order, as the methods
    do: the first field that is missing or not a number ends the reading. *)
Fixpoint read_fields (idx : list nat) (tok : list string)
    : result (list pyfloat) :=
  match idx with
  | [] => Return []
  | i :: idx' =>
      match tok !! i with
      | None => Raise IndexError
      | Some s =>
          match float s with
          | None => Raise ValueError
          | Some x =>
              match read_fields idx' tok with
              | Return xs => Return (x :: xs)
              | Raise e => Raise e
              end
          end
      end
  end.

(** The world after a caller has made the calls one after the other, going
    on to the next call also when one raises. *)
Definition session (cs : list call) (w : World) : World :=
  fold_left (fun w c => snd (invoke c w)) cs w.

(** How many of the calls read a response line. *)
Definition reading (cs : list call) : nat :=
  length (List.filter checked cs).

(** A computation that never raises the domain error. *)
Definition no_prober_exception {A} (m : M A) : Prop :=
  forall w msg, fst (m w) <> Raise (ProberException msg).

(** A computation that leaves the whole world as it found it. *)
Definition untouched {A} (m : M A) : Prop := forall w, snd (m w) = w.

(** What a call leaves on the channel, in every state of it: its command
    line, then the line it read if it reads and one was pending. *)
Definition channel_effect (c : call) (w : World) : Prop :=
  trace (snd (invoke c w)) =
    trace w ++ Send (command_line c) ::
      (if checked c then
         match incoming w with
         | r :: _ => [ReadLine r]
         | [] => []
         end
       else []) /\
  incoming (snd (invoke c w)) =
    if checked c then tail (incoming w) else incoming w.

(** The tokens of a tip record. *)
Definition tokens (s : string) : list string := split " " (strip s).

End Behaviour.
End Behaviour.

(** ** Facts about the built-ins *)

Module PyFacts.
Import Py Notions.

#[local] Arguments isspace : simpl never.

Lemma upper_char_one (c : ascii) :
  Ascii.eqb (upper_char c) "1" = Ascii.eqb c "1".
Proof.
  destruct c as [[] [] [] [] [] [] [] []]; reflexivity.
Qed.

Lemma lower_char_one (c : ascii) :
  Ascii.eqb (lower_char c) "1" = Ascii.eqb c "1".
Proof.
  destruct c as [[] [] [] [] [] [] [] []]; reflexivity.
Qed.

Lemma map_string_empty (f : ascii -> ascii) (s : string) :
  String.eqb (map_string f s) "" = String.eqb s "".
Proof. destruct s; reflexivity. Qed.

Lemma upper_one (s : string) :
  String.eqb (upper s) "1" = String.eqb s "1".
Proof.
  destruct s as [|c s]; [reflexivity|].
  cbn [upper map_string String.eqb].
  rewrite upper_char_one.
  destruct (Ascii.eqb c "1"); [apply map_string_empty | reflexivity].
Qed.

Lemma lower_one (s : string) :
  String.eqb (lower s) "1" = String.eqb s "1".
Proof.
  destruct s as [|c s]; [reflexivity|].
  cbn [lower map_string String.eqb].
  rewrite lower_char_one.
  destruct (Ascii.eqb c "1"); [apply map_string_empty | reflexivity].
Qed.

Lemma caseless_one (s : string) :
  caseless_eqb s "1" = true <-> s = "1".
Proof.
  unfold caseless_eqb. change (lower "1") with "1".
  rewrite lower_one. apply String.eqb_eq.
Qed.

Lemma lstrip_id (s : string) : starts_space s = false -> lstrip s = s.
Proof. destruct s as [|c s]; cbn; [reflexivity|]. intros ->. reflexivity. Qed.

Lemma rstrip_id (s : string) : ends_space s = false -> rstrip s = s.
Proof.
  induction s as [|c s IH]; [reflexivity|].
  destruct s as [|d s].
  - cbn. intros ->. reflexivity.
  - intros Hs. change (ends_space (String d s) = false) in Hs.
    specialize (IH Hs).
    change (rstrip (String c (String d s)))
      with (match rstrip (String d s) with
            | EmptyString =>
                if isspace c then EmptyString else String c EmptyString
            | r => String c r
            end).
    rewrite IH. reflexivity.
Qed.

Lemma strip_id (s : string) : surrounding_space s = false -> strip s = s.
Proof.
  unfold surrounding_space, strip. intros Hs.
  apply orb_false_iff in Hs as [Hl Hr].
  rewrite (lstrip_id _ Hl). apply rstrip_id, Hr.
Qed.

Lemma no_space_edges (s : string) :
  no_space s = true -> surrounding_space s = false.
Proof.
  unfold surrounding_space. intros Hs. apply orb_false_iff. split.
  - destruct s as [|c s]; [reflexivity|]. cbn in *.
    apply andb_true_iff in Hs as [Hc _]. now apply negb_true_iff in Hc.
  - induction s as [|c s IH]; [reflexivity|].
    cbn in Hs. apply andb_true_iff in Hs as [Hc Hs].
    destruct s as [|d s].
    + cbn. now apply negb_true_iff in Hc.
    + change (ends_space (String d s) = false). now apply IH.
Qed.

Lemma append_cons (c : ascii) (l s : string) :
  String c l +:+ s = String c (l +:+ s).
Proof. reflexivity. Qed.

Lemma append_nil (s : string) : "" +:+ s = s.
Proof. reflexivity. Qed.

Lemma lstrip_cons (c : ascii) (s : string) :
  lstrip (String c s) = if isspace c then lstrip s else String c s.
Proof. reflexivity. Qed.

Lemma rstrip_cons (c : ascii) (s : string) :
  rstrip (String c s) =
  match rstrip s with
  | EmptyString => if isspace c then EmptyString else String c EmptyString
  | r => String c r
  end.
Proof. reflexivity. Qed.

Lemma lstrip_app_space (l s : string) :
  all_space l = true -> lstrip (l +:+ s) = lstrip s.
Proof.
  induction l as [|c l IH]; [reflexivity|].
  intros Hl. cbn [all_space] in Hl. apply andb_true_iff in Hl as [Hc Hl].
  rewrite append_cons, lstrip_cons, Hc. now apply IH.
Qed.

Lemma rstrip_all_space (t : string) : all_space t = true -> rstrip t = "".
Proof.
  induction t as [|c t IH]; [reflexivity|].
  intros Ht. cbn [all_space] in Ht. apply andb_true_iff in Ht as [Hc Ht].
  now rewrite rstrip_cons, (IH Ht), Hc.
Qed.

Lemma strip_padded_one (l t : string) :
  all_space l = true -> all_space t = true -> strip (l +:+ "1" +:+ t) = "1".
Proof.
  intros Hl Ht. unfold strip. rewrite (lstrip_app_space _ _ Hl).
  rewrite append_cons, append_nil, lstrip_cons.
  change (isspace "1") with false. cbv iota.
  now rewrite rstrip_cons, (rstrip_all_space _ Ht).
Qed.

Lemma space_not_one (c : ascii) : isspace c = true -> Ascii.eqb c "1" = false.
Proof.
  destruct (Ascii.eqb c "1") eqn:E; [|reflexivity].
  apply Ascii.eqb_eq in E. subst c. intros Hc. discriminate Hc.
Qed.

Lemma padded_one_differs (l t : string) :
  all_space l = true -> all_space t = true -> l <> "" \/ t <> "" ->
  String.eqb (l +:+ "1" +:+ t) "1" = false.
Proof.
  intros Hl Ht Hne. destruct l as [|c l].
  - destruct Hne as [Hne|Hne]; [congruence|].
    destruct t as [|d t]; [congruence|]. reflexivity.
  - cbn [all_space] in Hl. apply andb_true_iff in Hl as [Hc _].
    rewrite append_cons. cbn [String.eqb]. now rewrite (space_not_one _ Hc).
Qed.

(** [float] does not skip the separators FS..US, which [strip] removes. *)
Lemma float_keeps_separators :
  strip (String "028" "1.0") = "1.0" /\
  float (String "028" "1.0") = None /\
  float (String "009" "1.0") = float "1.0".
Proof. repeat split; vm_compute; reflexivity. Qed.

End PyFacts.

(** ** Properties of the methods *)

Module Properties.
Import Py Channel Vision Notions Run Behaviour PyFacts.
Local Open Scope call_scope.

Section Claims.
Context {enums : Enumerations} {lib : Library}.

(** *** Running one exchange *)

Lemma run_exchange {A} (cmd : string) (k : Response -> M A) (w : World)
    (r : Response) (rest : list Response) :
  incoming w = r :: rest ->
  (send cmd ;;; resp <- read_checked ;; k resp) w =
  if ok r then k r (exchanged cmd r rest w)
  else (Raise (ProberException (message r)), exchanged cmd r rest w).
Proof.
  intros Hin.
  unfold read_checked.
  unfold bind, send, read_line, check_resp, ret, raise, exchanged.
  cbn. rewrite Hin. destruct (ok r); reflexivity.
Qed.

Lemma run_send_cmd {A} (cmd : string) (k : Response -> M A) (w : World)
    (r : Response) (rest : list Response) :
  incoming w = r :: rest ->
  (resp <- send_cmd cmd ;; k resp) w =
  if ok r then k r (exchanged cmd r rest w)
  else (Raise (ProberException (message r)), exchanged cmd r rest w).
Proof.
  intros Hin.
  unfold send_cmd.
  unfold bind, send, read_line, check_resp, ret, raise, exchanged.
  cbn. rewrite Hin. destruct (ok r); reflexivity.
Qed.

Lemma run_send_cmd_alone (cmd : string) (w : World) (r : Response)
    (rest : list Response) :
  incoming w = r :: rest ->
  send_cmd cmd w =
  if ok r then (Return r, exchanged cmd r rest w)
  else (Raise (ProberException (message r)), exchanged cmd r rest w).
Proof.
  intros Hin. unfold send_cmd.
  unfold bind, send, read_line, check_resp, ret, raise, exchanged.
  cbn. rewrite Hin. destruct (ok r); reflexivity.
Qed.

Lemma sent_exchanged (cmd : string) (r : Response) (rest : list Response)
    (w : World) :
  sent (exchanged cmd r rest w) = sent w ++ [cmd].
Proof.
  unfold sent, exchanged. cbn. rewrite !omap_app. cbn.
  now rewrite app_nil_r.
Qed.

Lemma sent_only_sent (cmd : string) (w : World) :
  sent (only_sent cmd w) = sent w ++ [cmd].
Proof. unfold sent, only_sent. cbn. now rewrite omap_app. Qed.

Lemma reads_exchanged (cmd : string) (r : Response) (rest : list Response)
    (w : World) :
  reads (exchanged cmd r rest w) = S (reads w).
Proof.
  unfold reads, exchanged. cbn.
  rewrite !List.filter_app, !length_app. cbn. lia.
Qed.

Lemma reads_only_sent (cmd : string) (w : World) :
  reads (only_sent cmd w) = reads w.
Proof.
  unfold reads, only_sent. cbn.
  rewrite List.filter_app, length_app. cbn. lia.
Qed.

(** *** align_wafer *)

(** C5.  [align_wafer] sends exactly one command line: the bare
    ["vis:align_wafer"] when the mode is [AlignOnly], and
    ["vis:align_wafer "] followed by the mode's wire string for every other
    mode. *)
Theorem C5_align_wafer_command (mode : AutoAlignCmd) (w : World) :
  (mode = AlignOnly ->
   sent (snd (align_wafer mode w)) = sent w ++ ["vis:align_wafer"]) /\
  (mode <> AlignOnly ->
   sent (snd (align_wafer mode w)) =
   sent w ++ ["vis:align_wafer " +:+ to_string mode]).
Proof.
  assert (Hrun : forall cmd,
    sent (snd ((send cmd ;;; _ <- read_checked ;; ret tt) w)) =
    sent w ++ [cmd]).
  { intros cmd. destruct (incoming w) as [|r rest] eqn:Hin.
    - unfold read_checked. unfold bind, send, read_line. cbn.
      rewrite Hin. exact (sent_only_sent cmd w).
    - rewrite (run_exchange cmd _ w r rest Hin).
      destruct (ok r); exact (sent_exchanged cmd r rest w). }
  unfold align_wafer. split; intros Hm.
  - destruct (decide (mode = AlignOnly)); [apply Hrun | contradiction].
  - destruct (decide (mode = AlignOnly)); [contradiction | apply Hrun].
Qed.

(** *** has_camera and get_light_status *)

Lemma has_camera_run (camera : CameraMountPoint) (w : World) (r : Response)
    (rest : list Response) :
  incoming w = r :: rest -> ok r = true ->
  fst (has_camera camera w) = Return (String.eqb (message r) "1").
Proof.
  intros Hin Hok. unfold has_camera.
  rewrite (run_exchange _ _ w r rest Hin), Hok. cbn.
  now rewrite upper_one.
Qed.

Lemma get_light_status_run (camera : CameraMountPoint) (w : World)
    (r : Response) (rest : list Response) :
  incoming w = r :: rest -> ok r = true ->
  fst (get_light_status camera w) =
  Return (String.eqb (strip (message r)) "1").
Proof.
  intros Hin Hok. unfold get_light_status.
  rewrite (run_exchange _ _ w r rest Hin), Hok. cbn.
  now rewrite lower_one.
Qed.

(** C4.  On a success response whose payload is a single token, [has_camera]
    and [get_light_status] both return whether the payload equals ["1"] up
    to letter case, which is [true] exactly when the payload is ["1"]. *)
Theorem C4_boolean_operations (camera : CameraMountPoint) (w : World)
    (r : Response) (rest : list Response) :
  incoming w = r :: rest -> ok r = true ->
  single_token (message r) = true ->
  fst (has_camera camera w) = Return (caseless_eqb (message r) "1") /\
  fst (get_light_status camera w) = Return (caseless_eqb (message r) "1") /\
  (caseless_eqb (message r) "1" = true <-> message r = "1").
Proof.
  intros Hin Hok Htok.
  apply andb_true_iff in Htok as [_ Hns].
  assert (Hcl : caseless_eqb (message r) "1" = String.eqb (message r) "1").
  { unfold caseless_eqb. change (lower "1") with "1". apply lower_one. }
  split; [|split].
  - rewrite Hcl. now apply has_camera_run with (rest := rest).
  - rewrite Hcl, (get_light_status_run camera w r rest Hin Hok).
    now rewrite (strip_id _ (no_space_edges _ Hns)).
  - apply caseless_one.
Qed.

(** C10.  On a success response: when the payload is ["1"] with whitespace
    before or after it, [get_light_status] returns [true] and [has_camera]
    returns [false]; when the payload has no whitespace at either end, the
    two return the same value. *)
Theorem C10_padding_disagreement (camera : CameraMountPoint) (w : World)
    (r : Response) (rest : list Response) :
  incoming w = r :: rest -> ok r = true ->
  (forall l t : string,
     all_space l = true -> all_space t = true -> l <> "" \/ t <> "" ->
     message r = l +:+ "1" +:+ t ->
     fst (get_light_status camera w) = Return true /\
     fst (has_camera camera w) = Return false) /\
  (surrounding_space (message r) = false ->
   fst (has_camera camera w) = fst (get_light_status camera w)).
Proof.
  intros Hin Hok.
  rewrite (has_camera_run camera w r rest Hin Hok).
  rewrite (get_light_status_run camera w r rest Hin Hok).
  split.
  - intros l t Hl Ht Hne ->. split.
    + now rewrite (strip_padded_one l t Hl Ht).
    + now rewrite (padded_one_differs l t Hl Ht Hne).
  - intros Hs. now rewrite (strip_id _ Hs).
Qed.

(** *** start_execute_compensation *)


(** *** snap_image *)

(** C6.  With [where_ = Local], [snap_image] sends the command that asks for
    the image inline ([**download**]); on a success response whose payload
    decodes, the decoded bytes become the content of [file].  With any other
    location it sends the command that carries [file] as its argument, and
    the local files are left as they were. *)
Theorem C6_snap_image (file : string) (what : SnapshotType)
    (where_ : SnapshotLocation) (w : World) :
  (where_ = Local ->
   sent (snd (snap_image file what where_ w)) =
   sent w ++ ["vis:snap_image **download**, " +:+ to_string what] /\
   forall (r : Response) (rest : list Response) (data : list Byte.byte),
     incoming w = r :: rest -> ok r = true ->
     b64decode (message r) = Some data -> writable w file = true ->
     fst (snap_image file what where_ w) = Return tt /\
     files (snd (snap_image file what where_ w)) = <[file := data]> (files w))
  /\
  (where_ <> Local ->
   sent (snd (snap_image file what where_ w)) =
   sent w ++ ["vis:snap_image " +:+ file +:+ ", " +:+ to_string what] /\
   files (snd (snap_image file what where_ w)) = files w).
Proof.
  unfold snap_image. split; intros Hw.
  - destruct (decide (where_ = Local)) as [_|Hn]; [|contradiction]. split.
    + destruct (incoming w) as [|r rest] eqn:Hin.
      * unfold read_checked. unfold bind, send, read_line. cbn.
        rewrite Hin. exact (sent_only_sent _ w).
      * rewrite (run_exchange _ _ w r rest Hin).
        destruct (ok r); [|exact (sent_exchanged _ r rest w)].
        unfold bind, write_file, ret, raise.
        destruct (b64decode (message r));
          [|exact (sent_exchanged _ r rest w)].
        cbn [writable exchanged].
        destruct (writable w file); exact (sent_exchanged _ r rest w).
    + intros r rest data Hin Hok Hdec Hwr.
      rewrite (run_exchange _ _ w r rest Hin), Hok.
      unfold bind, write_file, ret. rewrite Hdec.
      cbn [writable exchanged]. rewrite Hwr. split; reflexivity.
  - destruct (decide (where_ = Local)) as [Hy|_]; [contradiction|].
    destruct (incoming w) as [|r rest] eqn:Hin.
    + unfold read_checked. unfold bind, send, read_line. cbn.
      rewrite Hin. split; [exact (sent_only_sent _ w) | reflexivity].
    + rewrite (run_exchange _ _ w r rest Hin).
      destruct (ok r);
        (split; [exact (sent_exchanged _ r rest w) | reflexivity]).
Qed.

(** *** Reading numbers out of a payload *)

Lemma float_at_run (tok : list string) (i : nat) (w : World) :
  float_at tok i w =
  (match tok !! i with
   | Some s =>
       match float s with
       | Some x => Return x
       | None => Raise ValueError
       end
   | None => Raise IndexError
   end, w).
Proof.
  unfold float_at, index, to_float, bind, ret, raise.
  destruct (tok !! i) as [s|]; [|reflexivity].
  destruct (float s); reflexivity.
Qed.

Lemma numeric_at_run (tok : list string) (i : nat) :
  numeric_at tok i = true ->
  exists x, forall w, float_at tok i w = (Return x, w).
Proof.
  unfold numeric_at. intros Hn.
  destruct (tok !! i) as [s|] eqn:Hs; [|discriminate].
  apply bool_decide_eq_true in Hn as [x Hx].
  exists x. intros w. now rewrite float_at_run, Hs, Hx.
Qed.

Lemma numeric_at_false (tok : list string) (i : nat) (w : World) :
  numeric_at tok i = false ->
  float_at tok i w = (Raise IndexError, w) \/
  float_at tok i w = (Raise ValueError, w).
Proof.
  unfold numeric_at. rewrite float_at_run. intros Hn.
  destruct (tok !! i) as [s|]; [|now left].
  destruct (float s) as [x|]; [|now right].
  apply bool_decide_eq_false in Hn. destruct Hn. now exists x.
Qed.

(** *** align_die *)

(** C7.  On a success response, [align_die] returns the first three comma
    fields of the payload as floats when they are there and numeric; the
    payload ["1.0,2.0,3.0"] gives [(1.0, 2.0, 3.0)]; and the call raises
    ([IndexError] or [ValueError]) when the first three fields are not all
    there and numeric. *)
Theorem C7_align_die (threshold : pynum) (w : World) (r : Response)
    (rest : list Response) :
  incoming w = r :: rest -> ok r = true ->
  (forall (t0 t1 t2 : string) (more : list string) (a b c : pyfloat),
     split "," (message r) = t0 :: t1 :: t2 :: more ->
     float t0 = Some a -> float t1 = Some b -> float t2 = Some c ->
     fst (align_die threshold w) = Return (a, b, c)) /\
  (message r = "1.0,2.0,3.0" ->
   fst (align_die threshold w) = Return (lit "1.0", lit "2.0", lit "3.0")) /\
  (numeric_fields 3 (split "," (message r)) = false ->
   fst (align_die threshold w) = Raise IndexError \/
   fst (align_die threshold w) = Raise ValueError).
Proof.
  intros Hin Hok. unfold align_die.
  rewrite (run_exchange _ _ w r rest Hin), Hok.
  set (w' := exchanged _ r rest w). clearbody w'.
  assert (Hfields : forall t0 t1 t2 more a b c,
    split "," (message r) = t0 :: t1 :: t2 :: more ->
    float t0 = Some a -> float t1 = Some b -> float t2 = Some c ->
    fst ((a <- float_at (split "," (message r)) 0 ;;
          b <- float_at (split "," (message r)) 1 ;;
          c <- float_at (split "," (message r)) 2 ;;
          ret (a, b, c)) w') = Return (a, b, c)).
  { intros t0 t1 t2 more a b c Hs Ha Hb Hc. unfold bind.
    unfold float_at, index, to_float, bind, ret, raise. rewrite Hs.
    cbn. rewrite Ha. cbn. rewrite Hb. cbn. rewrite Hc. reflexivity. }
  split; [exact Hfields | split].
  - intros Hm.
    apply (Hfields "1.0" "2.0" "3.0" []); rewrite ?Hm; reflexivity.
  - intros Hnf. unfold numeric_fields in Hnf. cbn [seq forallb] in Hnf.
    unfold bind.
    destruct (numeric_at (split "," (message r)) 0) eqn:Hn0.
    + destruct (numeric_at_run _ _ Hn0) as [a ->].
      destruct (numeric_at (split "," (message r)) 1) eqn:Hn1.
      * destruct (numeric_at_run _ _ Hn1) as [b ->].
        destruct (numeric_at (split "," (message r)) 2) eqn:Hn2;
          [discriminate Hnf|].
        destruct (numeric_at_false _ _ w' Hn2) as [-> | ->]; auto.
      * destruct (numeric_at_false _ _ w' Hn1) as [-> | ->]; auto.
    + destruct (numeric_at_false _ _ w' Hn0) as [-> | ->]; auto.
Qed.

(** *** detect_probetips *)

Lemma bind_return {A B} (m : M A) (k : A -> M B) (w : World) (a : A)
    (w' : World) :
  m w = (Return a, w') -> bind m k w = k a w'.
Proof. unfold bind. now intros ->. Qed.

Lemma bind_raise {A B} (m : M A) (k : A -> M B) (w : World) (e : exn)
    (w' : World) :
  m w = (Raise e, w') -> bind m k w = (Raise e, w').
Proof. unfold bind. now intros ->. Qed.

Lemma fmap_call_run {A B} (f : A -> B) (m : M A) (w : World) :
  fmap_call f m w =
  match m w with
  | (Return a, w') => (Return (f a), w')
  | (Raise e, w') => (Raise e, w')
  end.
Proof. reflexivity. Qed.

Ltac run_floats :=
  repeat match goal with
  | Hr : forall w, float_at ?tok ?i w = (Return ?x, w)
    |- context [bind (float_at ?tok ?i) ?k ?w'] =>
      rewrite (bind_return (float_at tok i) k w' x w' (Hr w')); cbv beta
  end.

Ltac split_numeric Hwf :=
  unfold numeric_fields in Hwf; cbn [seq forallb] in Hwf;
  repeat (let Hn := fresh "Hn" in apply andb_true_iff in Hwf as [Hn Hwf]);
  repeat match goal with
  | Hn : numeric_at _ _ = true |- _ =>
      let x := fresh "x" in
      let Hr := fresh "Hr" in
      destruct (numeric_at_run _ _ Hn) as [x Hr]; clear Hn
  end.

(** Every record of a list of tip records is parsed, whatever class id and
    entries the loop starts the list with. *)
Lemma tips_loop_ok (str_tips : list string) :
  forallb tip_record str_tips = true ->
  forall (cid : pynum) (found_tips : list (list pynum)) (w : World),
  exists tips, tips_loop str_tips cid found_tips w = (Return tips, w).
Proof.
  induction str_tips as [|s rest IH]; intros Hall cid found_tips w.
  - exists found_tips. reflexivity.
  - cbn [forallb] in Hall. apply andb_true_iff in Hall as [Hrec Hall].
    unfold tip_record in Hrec. apply andb_true_iff in Hrec as [Hfive Hsix].
    split_numeric Hfive.
    cbn [tips_loop]. run_floats.
    destruct (6 <=? length (split " " (strip s)))%nat eqn:Hlen.
    + assert (Hn5 : numeric_at (split " " (strip s)) 5 = true).
      { apply orb_true_iff in Hsix as [Hlt|Hn5]; [|exact Hn5].
        apply Nat.ltb_lt in Hlt. apply Nat.leb_le in Hlen. lia. }
      destruct (numeric_at_run _ _ Hn5) as [v Hv].
      unfold bind at 1. unfold bind at 1. rewrite Hv. unfold ret at 1.
      apply IH, Hall.
    + unfold bind at 1. unfold ret at 1. apply IH, Hall.
Qed.

Lemma numeric_at_inv (tok : list string) (i : nat) :
  numeric_at tok i = true ->
  exists s x, tok !! i = Some s /\ float s = Some x.
Proof.
  unfold numeric_at. intros Hn.
  destruct (tok !! i) as [s|]; [|discriminate].
  apply bool_decide_eq_true in Hn as [x Hx]. now exists s, x.
Qed.

(** The class id of every entry the loop appends: entry [n] carries what the
    loop holds after records [0..n], so a record without a sixth token gets
    the class id of the entry before it, and the starting value only if no
    record before it had one. *)
Lemma tips_loop_class_ids (str_tips : list string) :
  forallb tip_record str_tips = true ->
  forall (cid : pynum) (found_tips : list (list pynum)) (w : World),
  exists tips,
    tips_loop str_tips cid found_tips w = (Return (found_tips ++ tips), w) /\
    length tips = length str_tips /\
    forall n, (n < length str_tips)%nat ->
      exists e, tips !! n = Some e /\ length e = 6%nat /\
                e !! 5%nat = Some (carried cid (take (S n) str_tips)).
Proof.
  induction str_tips as [|s rest IH]; intros Hall cid found_tips w.
  - exists []. rewrite app_nil_r. repeat split. cbn. intros n Hn. lia.
  - cbn [forallb] in Hall. apply andb_true_iff in Hall as [Hrec Hall].
    unfold tip_record in Hrec. apply andb_true_iff in Hrec as [Hfive Hsix].
    split_numeric Hfive. cbn [tips_loop]. run_floats.
    assert (Hcid : exists w',
      ((if (6 <=? length (split " " (strip s)))%nat
        then (v <- float_at (split " " (strip s)) 5 ;; ret (PyFloat v))
        else ret cid) w') = (Return (class_id_after cid s), w') /\ w' = w).
    { exists w. split; [|reflexivity]. unfold class_id_after.
      destruct (6 <=? length (split " " (strip s)))%nat eqn:Hlen;
        [|reflexivity].
      assert (Hn5 : numeric_at (split " " (strip s)) 5 = true).
      { apply orb_true_iff in Hsix as [Hlt|Hn5]; [|exact Hn5].
        apply Nat.ltb_lt in Hlt. apply Nat.leb_le in Hlen. lia. }
      destruct (numeric_at_inv _ _ Hn5) as (t & v & Ht & Hv).
      unfold bind. rewrite float_at_run, Ht, Hv. cbn. now rewrite Hv. }
    destruct Hcid as (w' & Hcid & ->).
    rewrite (bind_return _ _ _ _ _ Hcid). cbv beta.
    match goal with
    | |- context [tips_loop rest _ (found_tips ++ [?e])] => set (entry := e)
    end.
    destruct (IH Hall (class_id_after cid s) (found_tips ++ [entry]) w)
      as (tips & Hrun & Hlen & Hids).
    exists (entry :: tips). split; [|split].
    + rewrite Hrun. now rewrite <- app_assoc.
    + cbn. now rewrite Hlen.
    + intros [|n] Hn.
      * exists entry. repeat split.
      * cbn [length] in Hn. destruct (Hids n ltac:(lia)) as (e & He & Hl & Hc).
        exists e. repeat split; assumption.
Qed.

(** A record with fewer than six tokens leaves the class id as the record
    before it left it. *)
Lemma carried_five_fields (cid : pynum) (records : list string) (n : nat)
    (s : string) :
  records !! n = Some s ->
  (length (split " " (strip s)) < 6)%nat ->
  carried cid (take (S n) records) = carried cid (take n records).
Proof.
  intros Hs Hlen. rewrite (take_S_r _ _ _ Hs). unfold carried.
  rewrite fold_left_app. cbn [fold_left]. unfold class_id_after at 1.
  apply Nat.ltb_lt in Hlen. rewrite Nat.ltb_antisym in Hlen.
  apply negb_true_iff in Hlen. now rewrite Hlen.
Qed.

(** C1.  [detect_probetips] on three payloads: the single record
    ["10 20 5 5 0.9"] gets class id [0], which equals [0.0]; the single
    record ["10 20 5 5 0.9 2"] gets class id [2.0]; but when the five-field
    record comes after the six-field one, it gets that record's class id
    [2.0], which is not [0.0]. *)
Theorem C1_class_id_carried_over (camera : CameraMountPoint)
    (detector : DetectionAlgorithm) (coords : DetectionCoordindates)
    (rest : list Response) (tr : list event)
    (fs : gmap string (list Byte.byte)) (wr : string -> bool) :
  let run payload :=
    fst (detect_probetips camera detector coords
           (mkWorld (mkResponse true payload :: rest) tr fs wr)) in
  let tip cid :=
    [PyFloat (lit "10.0"); PyFloat (lit "20.0"); PyFloat (lit "5.0");
     PyFloat (lit "5.0"); PyFloat (lit "0.9"); cid] in
  run "10 20 5 5 0.9" = Return [tip (PyInt 0)] /\
  py_eqb (PyInt 0) (PyFloat (lit "0.0")) = true /\
  run "10 20 5 5 0.9 2" = Return [tip (PyFloat (lit "2.0"))] /\
  run "10 20 5 5 0.9 2,10 20 5 5 0.9" =
    Return [tip (PyFloat (lit "2.0")); tip (PyFloat (lit "2.0"))] /\
  py_eqb (PyFloat (lit "2.0")) (PyFloat (lit "0.0")) = false.
Proof.
  cbv zeta. unfold detect_probetips.
  repeat split;
    try (erewrite run_exchange by reflexivity; cbn [ok message];
         vm_compute; reflexivity);
    vm_compute; reflexivity.
Qed.

(** C2.  [detect_probetips] on a success response with the empty payload
    raises [ValueError]: the payload splits into one empty record, whose first
    token is not a number. *)
Theorem C2_empty_payload_raises (camera : CameraMountPoint)
    (detector : DetectionAlgorithm) (coords : DetectionCoordindates)
    (rest : list Response) (tr : list event)
    (fs : gmap string (list Byte.byte)) (wr : string -> bool) :
  split "," "" = [""] /\
  fst (detect_probetips camera detector coords
         (mkWorld (mkResponse true "" :: rest) tr fs wr)) = Raise ValueError.
Proof.
  split; [reflexivity|]. unfold detect_probetips.
  erewrite run_exchange by reflexivity. cbn [ok message].
  vm_compute. reflexivity.
Qed.

(** *** switch_all_lights and switch_camera *)

(** [switch_all_lights] and [switch_camera] send their command and return
    without reading: the count of lines read does not change and the response
    stays pending on the channel. *)
Lemma switches_read_nothing (stat : bool) (camera : CameraMountPoint)
    (w : World) :
  switch_all_lights stat w =
    (Return tt, only_sent ("vis:switch_all_lights " +:+ str_bool stat) w) /\
  switch_camera camera w =
    (Return tt, only_sent ("vis:switch_camera " +:+ to_string camera) w) /\
  reads (snd (switch_all_lights stat w)) = reads w /\
  reads (snd (switch_camera camera w)) = reads w /\
  incoming (snd (switch_all_lights stat w)) = incoming w /\
  incoming (snd (switch_camera camera w)) = incoming w.
Proof.
  repeat split; try reflexivity;
    unfold switch_all_lights, switch_camera, send; cbn [snd];
    apply (reads_only_sent _ w).
Qed.

(** *** Every checked method *)

Lemma exchange_fails {A} (cmd : string) (k : Response -> M A) (w : World)
    (r : Response) (rest : list Response) :
  incoming w = r :: rest -> ok r = false ->
  (send cmd ;;; resp <- read_checked ;; k resp) w =
  (Raise (ProberException (message r)), exchanged cmd r rest w).
Proof. intros Hin Hok. now rewrite (run_exchange cmd k w r rest Hin), Hok. Qed.

Lemma exchange_succeeds {A} (cmd : string) (k : Response -> M A) (w : World)
    (r : Response) (rest : list Response) :
  incoming w = r :: rest -> ok r = true ->
  (send cmd ;;; resp <- read_checked ;; k resp) w =
  k r (exchanged cmd r rest w).
Proof. intros Hin Hok. now rewrite (run_exchange cmd k w r rest Hin), Hok. Qed.

Lemma invoke_fails (c : call) (w : World) (r : Response)
    (rest : list Response) :
  checked c = true -> incoming w = r :: rest -> ok r = false ->
  fst (invoke c w) = Raise (ProberException (message r)).
Proof.
  intros Hc Hin Hok.
  destruct c; try discriminate Hc; cbn [invoke]; rewrite fmap_call_run;
    try (unfold align_die, camera_synchronize, detect_probetips,
           enable_follow_mode, find_home, find_pattern, has_camera,
           remove_probetip_marker, match_tips, switch_light, ptpa_find_pads,
           ptpa_find_tips, start_execute_compensation, find_thermal_die_size,
           get_lens_zoom_level, set_lens_zoom_level, get_light_status;
         now rewrite (exchange_fails _ _ w r rest Hin Hok)).
  - unfold align_wafer.
    destruct (decide (mode = AlignOnly));
      now rewrite (exchange_fails _ _ w r rest Hin Hok).
  - unfold auto_focus. now rewrite (run_send_cmd _ _ w r rest Hin), Hok.
  - unfold snap_image.
    destruct (decide (where_ = Local));
      now rewrite (exchange_fails _ _ w r rest Hin Hok).
  - unfold start_fast_track.
    now rewrite (run_send_cmd_alone _ w r rest Hin), Hok.
Qed.

Ltac finish_floats :=
  run_floats; unfold ret; cbn [fst]; eexists; reflexivity.

Lemma invoke_succeeds (c : call) (w : World) (r : Response)
    (rest : list Response) :
  checked c = true -> incoming w = r :: rest -> ok r = true ->
  parses c (message r) = true ->
  (forall path, writes_to c = Some path -> writable w path = true) ->
  exists v, fst (invoke c w) = Return v.
Proof.
  intros Hc Hin Hok Hwf Hwr.
  destruct c; try discriminate Hc; cbn [invoke parses] in *;
    rewrite fmap_call_run.
  - unfold align_wafer.
    destruct (decide (mode = AlignOnly));
      rewrite (exchange_succeeds _ _ w r rest Hin Hok); eexists; reflexivity.
  - unfold align_die. rewrite (exchange_succeeds _ _ w r rest Hin Hok).
    split_numeric Hwf. finish_floats.
  - unfold auto_focus. rewrite (run_send_cmd _ _ w r rest Hin), Hok.
    apply andb_true_iff in Hwf as [Hn Hax].
    destruct (numeric_at_run _ _ Hn) as [x Hr]. run_floats.
    unfold axis_at in Hax. unfold bind, index.
    destruct (split "," (message r) !! 1) as [name|]; [|discriminate].
    apply bool_decide_eq_true in Hax as [axis Hax].
    unfold ret at 1. rewrite Hax. eexists; reflexivity.
  - unfold camera_synchronize.
    rewrite (exchange_succeeds _ _ w r rest Hin Hok).
    split_numeric Hwf. finish_floats.
  - unfold detect_probetips.
    rewrite (exchange_succeeds _ _ w r rest Hin Hok).
    destruct (tips_loop_ok _ Hwf (PyInt 0) [] (exchanged
      ("vis:detect_probetips " +:+ to_string camera +:+ ", " +:+
       to_string detector +:+ ", " +:+ to_string coords) r rest w))
      as [tips ->].
    eexists; reflexivity.
  - unfold enable_follow_mode.
    rewrite (exchange_succeeds _ _ w r rest Hin Hok). eexists; reflexivity.
  - unfold find_home.
    rewrite (exchange_succeeds _ _ w r rest Hin Hok). eexists; reflexivity.
  - unfold find_pattern.
    rewrite (exchange_succeeds _ _ w r rest Hin Hok).
    split_numeric Hwf. finish_floats.
  - unfold has_camera.
    rewrite (exchange_succeeds _ _ w r rest Hin Hok). eexists; reflexivity.
  - unfold remove_probetip_marker.
    rewrite (exchange_succeeds _ _ w r rest Hin Hok). eexists; reflexivity.
  - unfold match_tips.
    rewrite (exchange_succeeds _ _ w r rest Hin Hok).
    split_numeric Hwf. finish_floats.
  - unfold snap_image. cbn [writes_to] in Hwr.
    destruct (decide (where_ = Local)).
    + rewrite (exchange_succeeds _ _ w r rest Hin Hok).
      apply bool_decide_eq_true in Hwf as [data Hdata].
      unfold bind, write_file, ret. rewrite Hdata.
      cbn [writable exchanged]. rewrite (Hwr file eq_refl).
      eexists; reflexivity.
    + rewrite (exchange_succeeds _ _ w r rest Hin Hok). eexists; reflexivity.
  - unfold switch_light.
    rewrite (exchange_succeeds _ _ w r rest Hin Hok). eexists; reflexivity.
  - unfold ptpa_find_pads.
    rewrite (exchange_succeeds _ _ w r rest Hin Hok).
    split_numeric Hwf. finish_floats.
  - unfold ptpa_find_tips.
    rewrite (exchange_succeeds _ _ w r rest Hin Hok).
    split_numeric Hwf. finish_floats.
  - unfold start_fast_track.
    rewrite (run_send_cmd_alone _ w r rest Hin), Hok. eexists; reflexivity.
  - unfold start_execute_compensation.
    rewrite (exchange_succeeds _ _ w r rest Hin Hok), Hok.
    eexists; reflexivity.
  - unfold find_thermal_die_size.
    rewrite (exchange_succeeds _ _ w r rest Hin Hok).
    split_numeric Hwf. finish_floats.
  - unfold get_lens_zoom_level.
    rewrite (exchange_succeeds _ _ w r rest Hin Hok).
    apply bool_decide_eq_true in Hwf as [x Hx].
    unfold to_float. rewrite Hx. eexists; reflexivity.
  - unfold set_lens_zoom_level.
    rewrite (exchange_succeeds _ _ w r rest Hin Hok). eexists; reflexivity.
  - unfold get_light_status.
    rewrite (exchange_succeeds _ _ w r rest Hin Hok). eexists; reflexivity.
Qed.

Lemma split_not_nil (sep : ascii) (s : string) : split sep s <> [].
Proof.
  destruct s as [|c s]; cbn [split]; [discriminate|].
  destruct (Ascii.eqb c sep); [discriminate|].
  destruct (split sep s); discriminate.
Qed.

Lemma split_single (sep : ascii) (s : string) :
  length (split sep s) = 1%nat -> split sep s = [s].
Proof.
  induction s as [|c s IH]; [reflexivity|]. cbn [split].
  destruct (Ascii.eqb c sep).
  - intros Hlen. cbn in Hlen. injection Hlen as Hlen.
    apply length_zero_iff_nil in Hlen. now destruct (split_not_nil sep s).
  - destruct (split sep s) as [|t ts] eqn:Hs.
    + now destruct (split_not_nil sep s).
    + intros Hlen. cbn in Hlen. injection Hlen as Hlen.
      apply length_zero_iff_nil in Hlen. subst ts.
      specialize (IH eq_refl). injection IH as ->. reflexivity.
Qed.

Lemma fields_exactly_numeric (n : nat) (tok : list string) :
  fields_exactly n tok = true -> numeric_fields n tok = true.
Proof. unfold fields_exactly. intros Hf. now apply andb_true_iff in Hf. Qed.

(** The shape the amended claim speaks of is one every parser accepts. *)
Lemma well_formed_as_read_parses (c : call) (payload : string) :
  well_formed_as_read c payload = true -> parses c payload = true.
Proof.
  destruct c; cbn [well_formed_as_read well_formed parses];
    try (intros _; reflexivity); try (intros Hwf; exact Hwf);
    try apply fields_exactly_numeric.
  - intros Hwf. apply andb_true_iff in Hwf as [Hwf Hax].
    apply andb_true_iff in Hwf as [_ Hn]. now rewrite Hn, Hax.
  - unfold fields_exactly. intros Hwf.
    apply andb_true_iff in Hwf as [Hlen Hn]. apply Nat.eqb_eq in Hlen.
    unfold numeric_fields in Hn. cbn [seq forallb] in Hn.
    apply andb_true_iff in Hn as [Hn _]. unfold numeric_at in Hn.
    now rewrite (split_single _ _ Hlen) in Hn.
Qed.

(** C9 (amended).  For every method that passes the line it reads to
    [check_resp]: on a failure response the call raises [ProberException]
    with the instrument's message; on a success response whose payload has
    the shape the specification gives the method -- for [detect_probetips],
    at least one record and the tokens of a record one space apart -- the
    call returns, provided that the file of a local snapshot can be opened
    for writing. *)
Theorem C9_checked_methods (c : call) (w : World) (r : Response)
    (rest : list Response) :
  checked c = true -> incoming w = r :: rest ->
  (ok r = false -> fst (invoke c w) = Raise (ProberException (message r))) /\
  (ok r = true -> well_formed_as_read c (message r) = true ->
   (forall path, writes_to c = Some path -> writable w path = true) ->
   exists v, fst (invoke c w) = Return v).
Proof.
  intros Hc Hin. split.
  - now apply invoke_fails with (rest := rest).
  - intros Hok Hwf Hwr.
    apply invoke_succeeds with (r := r) (rest := rest); try assumption.
    now apply well_formed_as_read_parses.
Qed.

(** *** What a call does on the channel *)

Lemma quiet_ret {A} (a : A) : quiet (ret a).
Proof. intros w. split; reflexivity. Qed.

Lemma quiet_raise {A} (e : exn) : quiet (raise (A := A) e).
Proof. intros w. split; reflexivity. Qed.

Lemma quiet_bind {A B} (m : M A) (k : A -> M B) :
  quiet m -> (forall a, quiet (k a)) -> quiet (bind m k).
Proof.
  intros Hm Hk w. unfold bind. specialize (Hm w).
  destruct (m w) as [[a|e] w']; cbn [snd] in Hm.
  - destruct (Hk a w') as [Ht Hi]. destruct Hm as [Ht' Hi'].
    split; congruence.
  - exact Hm.
Qed.

Lemma quiet_index {A} (l : list A) (i : nat) : quiet (index l i).
Proof.
  unfold index. destruct (l !! i); [apply quiet_ret | apply quiet_raise].
Qed.

Lemma quiet_to_float (s : string) : quiet (to_float s).
Proof.
  unfold to_float. destruct (float s); [apply quiet_ret | apply quiet_raise].
Qed.

Lemma quiet_float_at (tok : list string) (i : nat) : quiet (float_at tok i).
Proof.
  apply quiet_bind; [apply quiet_index | intros s; apply quiet_to_float].
Qed.

Lemma quiet_write_file (path : string) (data : list Byte.byte) :
  quiet (write_file path data).
Proof.
  intros w. unfold write_file. destruct (writable w path); split; reflexivity.
Qed.

Ltac solve_quiet :=
  repeat first
    [ apply quiet_ret
    | apply quiet_raise
    | apply quiet_float_at
    | apply quiet_index
    | apply quiet_to_float
    | apply quiet_write_file
    | apply quiet_bind; [|intros ?]
    | match goal with
      | |- quiet (match ?x with _ => _ end) => destruct x
      end
    | progress cbv zeta beta ].

Lemma quiet_tips_loop (str_tips : list string) :
  forall (cid : pynum) (found_tips : list (list pynum)),
    quiet (tips_loop str_tips cid found_tips).
Proof.
  induction str_tips as [|s rest IH]; intros cid found_tips.
  - apply quiet_ret.
  - cbn [tips_loop]. solve_quiet; apply IH.
Qed.

Lemma snd_fmap_call {A B} (f : A -> B) (m : M A) (w : World) :
  snd (fmap_call f m w) = snd (m w).
Proof. rewrite fmap_call_run. now destruct (m w) as [[a|e] w']. Qed.

Lemma exchange_trace {A} (cmd : string) (k : Response -> M A) (w : World)
    (r : Response) (rest : list Response) :
  (forall resp, quiet (k resp)) -> incoming w = r :: rest ->
  trace (snd ((send cmd ;;; resp <- read_checked ;; k resp) w)) =
    trace w ++ [Send cmd; ReadLine r] /\
  incoming (snd ((send cmd ;;; resp <- read_checked ;; k resp) w)) = rest.
Proof.
  intros Hk Hin. rewrite (run_exchange cmd k w r rest Hin).
  destruct (ok r).
  - destruct (Hk r (exchanged cmd r rest w)) as [-> ->].
    unfold exchanged. cbn. now rewrite <- app_assoc.
  - unfold exchanged. cbn. now rewrite <- app_assoc.
Qed.

Lemma send_cmd_trace {A} (cmd : string) (k : Response -> M A) (w : World)
    (r : Response) (rest : list Response) :
  (forall resp, quiet (k resp)) -> incoming w = r :: rest ->
  trace (snd ((resp <- send_cmd cmd ;; k resp) w)) =
    trace w ++ [Send cmd; ReadLine r] /\
  incoming (snd ((resp <- send_cmd cmd ;; k resp) w)) = rest.
Proof.
  intros Hk Hin. rewrite (run_send_cmd cmd k w r rest Hin).
  destruct (ok r).
  - destruct (Hk r (exchanged cmd r rest w)) as [-> ->].
    unfold exchanged. cbn. now rewrite <- app_assoc.
  - unfold exchanged. cbn. now rewrite <- app_assoc.
Qed.

Ltac one_exchange Hin :=
  eexists; apply exchange_trace; [intros ?; solve_quiet | exact Hin].

(** C3 (amended).  Every public method other than [switch_all_lights] and
    [switch_camera], called with a response line pending, performs exactly
    one exchange -- one command line out, then that one line in -- whatever
    the line says and however the call ends.  The local snapshot is no
    exception: it too performs one exchange. *)
Theorem C3_one_exchange_per_call (c : call) (w : World) (r : Response)
    (rest : list Response) :
  checked c = true -> incoming w = r :: rest ->
  exists cmd,
    trace (snd (invoke c w)) = trace w ++ [Send cmd; ReadLine r] /\
    incoming (snd (invoke c w)) = rest.
Proof.
  intros Hc Hin.
  destruct c; try discriminate Hc; cbn [invoke]; rewrite snd_fmap_call.
  - unfold align_wafer.
    destruct (decide (mode = AlignOnly)); one_exchange Hin.
  - unfold align_die. one_exchange Hin.
  - unfold auto_focus. eexists.
    apply send_cmd_trace; [intros ?; solve_quiet | exact Hin].
  - unfold camera_synchronize. one_exchange Hin.
  - unfold detect_probetips. eexists.
    apply exchange_trace; [intros ?; apply quiet_tips_loop | exact Hin].
  - unfold enable_follow_mode. one_exchange Hin.
  - unfold find_home. one_exchange Hin.
  - unfold find_pattern. one_exchange Hin.
  - unfold has_camera. one_exchange Hin.
  - unfold remove_probetip_marker. one_exchange Hin.
  - unfold match_tips. one_exchange Hin.
  - unfold snap_image.
    destruct (decide (where_ = Local)); one_exchange Hin.
  - unfold switch_light. one_exchange Hin.
  - unfold ptpa_find_pads. one_exchange Hin.
  - unfold ptpa_find_tips. one_exchange Hin.
  - unfold start_fast_track. eexists.
    rewrite (run_send_cmd_alone _ w r rest Hin).
    unfold exchanged. destruct (ok r); cbn; now rewrite <- app_assoc.
  - unfold start_execute_compensation. one_exchange Hin.
  - unfold find_thermal_die_size. one_exchange Hin.
  - unfold get_lens_zoom_level. one_exchange Hin.
  - unfold set_lens_zoom_level. one_exchange Hin.
  - unfold get_light_status. one_exchange Hin.
Qed.

(** The line a switch leaves pending is the one the next call reads:
    [has_camera] after [switch_all_lights] answers from the switch's
    response and leaves its own pending. *)
Lemma stale_response_after_switch (stat : bool) (camera : CameraMountPoint)
    (w : World) (r1 r2 : Response) (rest : list Response) :
  incoming w = r1 :: r2 :: rest -> ok r1 = true ->
  fst ((switch_all_lights stat ;;; has_camera camera) w) =
    Return (String.eqb (message r1) "1") /\
  incoming (snd ((switch_all_lights stat ;;; has_camera camera) w)) =
    r2 :: rest.
Proof.
  intros Hin Hok.
  set (w1 := only_sent ("vis:switch_all_lights " +:+ str_bool stat) w).
  change ((switch_all_lights stat ;;; has_camera camera) w)
    with (has_camera camera w1).
  assert (Hin1 : incoming w1 = r1 :: r2 :: rest) by exact Hin.
  split.
  - exact (has_camera_run camera w1 r1 (r2 :: rest) Hin1 Hok).
  - unfold has_camera.
    now rewrite (run_exchange _ _ w1 r1 (r2 :: rest) Hin1), Hok.
Qed.

(** *** The channel across whole calls *)

Lemma exchange_idle {A} (cmd : string) (k : Response -> M A) (w : World) :
  incoming w = [] ->
  (send cmd ;;; resp <- read_checked ;; k resp) w =
  (Raise ChannelError, only_sent cmd w).
Proof.
  intros Hin. unfold read_checked.
  unfold bind, send, read_line, only_sent. cbn. now rewrite Hin.
Qed.

Lemma send_cmd_idle {A} (cmd : string) (k : Response -> M A) (w : World) :
  incoming w = [] ->
  (resp <- send_cmd cmd ;; k resp) w = (Raise ChannelError, only_sent cmd w).
Proof.
  intros Hin. unfold send_cmd.
  unfold bind, send, read_line, only_sent. cbn. now rewrite Hin.
Qed.

Lemma send_cmd_alone_idle (cmd : string) (w : World) :
  incoming w = [] ->
  send_cmd cmd w = (Raise ChannelError, only_sent cmd w).
Proof.
  intros Hin. unfold send_cmd.
  unfold bind, send, read_line, only_sent. cbn. now rewrite Hin.
Qed.

Ltac exchange_effect :=
  match goal with
  | Hin : incoming ?w = ?r :: ?rest |- _ =>
      rewrite ?Hin; cbn [tail];
      apply exchange_trace; [intros ?; solve_quiet | exact Hin]
  | Hin : incoming ?w = [] |- _ =>
      rewrite ?Hin; cbn [tail];
      rewrite (exchange_idle _ _ _ Hin); split; [reflexivity | exact Hin]
  end.

Lemma invoke_channel_effect (c : call) (w : World) : channel_effect c w.
Proof.
  unfold channel_effect.
  destruct c; cbn [invoke checked command_line]; rewrite snd_fmap_call;
    destruct (incoming w) as [|r rest] eqn:Hin.
  - unfold align_wafer. destruct (decide (mode = AlignOnly)); exchange_effect.
  - unfold align_wafer. destruct (decide (mode = AlignOnly)); exchange_effect.
  - unfold align_die. exchange_effect.
  - unfold align_die. exchange_effect.
  - unfold auto_focus. rewrite (send_cmd_idle _ _ _ Hin).
    split; [reflexivity | exact Hin].
  - unfold auto_focus.
    apply send_cmd_trace; [intros ?; solve_quiet | exact Hin].
  - unfold camera_synchronize. exchange_effect.
  - unfold camera_synchronize. exchange_effect.
  - unfold detect_probetips. rewrite (exchange_idle _ _ _ Hin).
    split; [reflexivity | exact Hin].
  - unfold detect_probetips.
    apply exchange_trace; [intros ?; apply quiet_tips_loop | exact Hin].
  - unfold enable_follow_mode. exchange_effect.
  - unfold enable_follow_mode. exchange_effect.
  - unfold find_home. exchange_effect.
  - unfold find_home. exchange_effect.
  - unfold find_pattern. exchange_effect.
  - unfold find_pattern. exchange_effect.
  - unfold has_camera. exchange_effect.
  - unfold has_camera. exchange_effect.
  - split; [reflexivity | exact Hin].
  - split; [reflexivity | exact Hin].
  - unfold remove_probetip_marker. exchange_effect.
  - unfold remove_probetip_marker. exchange_effect.
  - unfold match_tips. exchange_effect.
  - unfold match_tips. exchange_effect.
  - unfold snap_image. destruct (decide (where_ = Local)); exchange_effect.
  - unfold snap_image. destruct (decide (where_ = Local)); exchange_effect.
  - unfold switch_light. exchange_effect.
  - unfold switch_light. exchange_effect.
  - split; [reflexivity | exact Hin].
  - split; [reflexivity | exact Hin].
  - unfold ptpa_find_pads. exchange_effect.
  - unfold ptpa_find_pads. exchange_effect.
  - unfold ptpa_find_tips. exchange_effect.
  - unfold ptpa_find_tips. exchange_effect.
  - unfold start_fast_track. rewrite (send_cmd_alone_idle _ _ Hin).
    split; [reflexivity | exact Hin].
  - unfold start_fast_track. rewrite (run_send_cmd_alone _ w r rest Hin).
    unfold exchanged. destruct (ok r); cbn; now rewrite <- app_assoc.
  - unfold start_execute_compensation. exchange_effect.
  - unfold start_execute_compensation. exchange_effect.
  - unfold find_thermal_die_size. exchange_effect.
  - unfold find_thermal_die_size. exchange_effect.
  - unfold get_lens_zoom_level. exchange_effect.
  - unfold get_lens_zoom_level. exchange_effect.
  - unfold set_lens_zoom_level. exchange_effect.
  - unfold set_lens_zoom_level. exchange_effect.
  - unfold get_light_status. exchange_effect.
  - unfold get_light_status. exchange_effect.
Qed.

Lemma sent_after_call (c : call) (w : World) :
  sent (snd (invoke c w)) = sent w ++ [command_line c].
Proof.
  destruct (invoke_channel_effect c w) as [Ht _].
  unfold sent. rewrite Ht, omap_app. f_equal. cbn [omap sent_of].
  destruct (checked c); [|reflexivity].
  destruct (incoming w); reflexivity.
Qed.

Lemma reads_after_call (c : call) (w : World) :
  reads (snd (invoke c w)) =
  (reads w +
   if checked c
   then match incoming w with [] => 0 | _ :: _ => 1 end
   else 0)%nat.
Proof.
  destruct (invoke_channel_effect c w) as [Ht _].
  unfold reads. rewrite Ht, List.filter_app, length_app. f_equal.
  destruct (checked c); [|reflexivity].
  destruct (incoming w); reflexivity.
Qed.

Lemma vis_prefix (c : call) : String.prefix "vis:" (command_line c) = true.
Proof.
  destruct c; cbn [command_line]; try reflexivity.
  - destruct (decide (mode = AlignOnly)); reflexivity.
  - destruct (decide (where_ = Local)); reflexivity.
Qed.

(** X1.  Every public method puts exactly one command line on the channel,
    in every state of the channel and however the call ends (it returns, the
    instrument reports failure, the payload does not parse, no line arrives):
    the line [command_line] gives for the call, which always starts with the
    group's prefix ["vis:"]. *)
Theorem X1_one_command_per_call (c : call) (w : World) :
  sent (snd (invoke c w)) = sent w ++ [command_line c] /\
  String.prefix "vis:" (command_line c) = true.
Proof. split; [apply sent_after_call | apply vis_prefix]. Qed.

(** *** Calls in sequence *)

Lemma session_cons (c : call) (cs : list call) (w : World) :
  session (c :: cs) w = session cs (snd (invoke c w)).
Proof. reflexivity. Qed.

Lemma reading_cons (c : call) (cs : list call) :
  reading (c :: cs) = ((if checked c then 1 else 0) + reading cs)%nat.
Proof. unfold reading. cbn [List.filter]. now destruct (checked c). Qed.

(** X2.  A caller making calls one after the other sends their command
    lines in that order, one each; and as long as enough response lines are
    pending, the calls consume them first come first served: one per call
    that reads, none per [switch_all_lights] or [switch_camera] -- so the
    instrument's answer to a switch is the line the next reading call takes
    for its own. *)
Theorem X2_calls_in_sequence (cs : list call) (w : World) :
  sent (session cs w) = sent w ++ map command_line cs /\
  ((reading cs <= length (incoming w))%nat ->
   incoming (session cs w) = drop (reading cs) (incoming w) /\
   reads (session cs w) = (reads w + reading cs)%nat).
Proof.
  revert w. induction cs as [|c cs IH]; intros w.
  - cbn. rewrite app_nil_r. split; [reflexivity|]. intros _.
    unfold reading. cbn. split; [reflexivity | lia].
  - rewrite session_cons, reading_cons.
    destruct (IH (snd (invoke c w))) as [Hs Hrest]. split.
    + rewrite Hs, sent_after_call. cbn [map]. now rewrite <- app_assoc.
    + intros Hlen.
      destruct (invoke_channel_effect c w) as [_ Hin].
      rewrite reads_after_call in Hrest. rewrite Hin in Hrest.
      destruct (checked c).
      * destruct (incoming w) as [|r rest] eqn:Hw; [cbn in Hlen; lia|].
        cbn [tail] in Hrest. cbn [length] in Hlen.
        destruct (Hrest ltac:(lia)) as [Hi Hr].
        split; [exact Hi | lia].
      * destruct (Hrest ltac:(cbn in Hlen; lia)) as [Hi Hr].
        split; [exact Hi | lia].
Qed.

(** *** The methods that return a tuple of floats *)

Lemma bind_float_at {B} (tok : list string) (i : nat) (k : pyfloat -> M B)
    (w : World) :
  bind (float_at tok i) k w =
  match tok !! i with
  | None => (Raise IndexError, w)
  | Some s =>
      match float s with
      | None => (Raise ValueError, w)
      | Some x => k x w
      end
  end.
Proof.
  unfold bind. rewrite float_at_run.
  destruct (tok !! i) as [s|]; [|reflexivity].
  destruct (float s); reflexivity.
Qed.

Ltac read_field tok i :=
  rewrite (bind_float_at tok i);
  let s := fresh "s" in
  let x := fresh "x" in
  destruct (tok !! i) as [s|]; [|reflexivity];
  destruct (float s) as [x|]; [|reflexivity].

Lemma invoke_reads_fields (c : call) (n : nat) (w : World) (r : Response)
    (rest : list Response) :
  arity c = Some n -> incoming w = r :: rest -> ok r = true ->
  fst (invoke c w) =
  match read_fields (seq 0 n) (split "," (message r)) with
  | Return xs => Return (RFloats xs)
  | Raise e => Raise e
  end.
Proof.
  intros Har Hin Hok.
  destruct c; try discriminate Har; cbn [arity] in Har;
    injection Har as <-; cbn [invoke seq read_fields];
    rewrite fmap_call_run;
    set (tok := split "," (message r)).
  - unfold align_die. rewrite (exchange_succeeds _ _ w r rest Hin Hok).
    cbv zeta. fold tok.
    read_field tok 0%nat. read_field tok 1%nat. read_field tok 2%nat.
    reflexivity.
  - unfold camera_synchronize.
    rewrite (exchange_succeeds _ _ w r rest Hin Hok). cbv zeta. fold tok.
    read_field tok 0%nat. read_field tok 1%nat. read_field tok 2%nat.
    reflexivity.
  - unfold find_pattern.
    rewrite (exchange_succeeds _ _ w r rest Hin Hok). cbv zeta. fold tok.
    read_field tok 0%nat. read_field tok 1%nat. read_field tok 2%nat.
    read_field tok 3%nat. reflexivity.
  - unfold match_tips.
    rewrite (exchange_succeeds _ _ w r rest Hin Hok). cbv zeta. fold tok.
    read_field tok 0%nat. read_field tok 1%nat. reflexivity.
  - unfold ptpa_find_pads.
    rewrite (exchange_succeeds _ _ w r rest Hin Hok). cbv zeta. fold tok.
    read_field tok 0%nat. read_field tok 1%nat. read_field tok 2%nat.
    reflexivity.
  - unfold ptpa_find_tips.
    rewrite (exchange_succeeds _ _ w r rest Hin Hok). cbv zeta. fold tok.
    read_field tok 0%nat. read_field tok 1%nat. read_field tok 2%nat.
    reflexivity.
  - unfold find_thermal_die_size.
    rewrite (exchange_succeeds _ _ w r rest Hin Hok). cbv zeta. fold tok.
    read_field tok 0%nat. read_field tok 1%nat. reflexivity.
Qed.

Lemma read_fields_all (tok : list string) (n a : nat) (xs : list pyfloat) :
  length xs = n ->
  (forall i x, xs !! i = Some x ->
     exists s, tok !! (a + i)%nat = Some s /\ float s = Some x) ->
  read_fields (seq a n) tok = Return xs.
Proof.
  revert a xs. induction n as [|n IH]; intros a xs Hlen Hxs.
  - destruct xs; [reflexivity | discriminate].
  - destruct xs as [|x xs]; [discriminate|].
    cbn [seq read_fields].
    destruct (Hxs 0%nat x eq_refl) as (s & Hs & Hx).
    rewrite Nat.add_0_r in Hs. rewrite Hs, Hx.
    rewrite (IH (S a) xs); [reflexivity | now injection Hlen |].
    intros i y Hy. destruct (Hxs (S i) y Hy) as (t & Ht & Hf).
    exists t. split; [|exact Hf]. now rewrite Nat.add_succ_comm.
Qed.

Lemma read_fields_short (tok : list string) (n a : nat) :
  (a <= length tok < a + n)%nat ->
  (forall s, In s tok -> is_Some (float s)) ->
  read_fields (seq a n) tok = Raise IndexError.
Proof.
  revert a. induction n as [|n IH]; intros a Hlen Hnum; [lia|].
  cbn [seq read_fields].
  destruct (tok !! a) as [s|] eqn:Hs; [|reflexivity].
  destruct (Hnum s) as [x Hx].
  { apply list_elem_of_In. now apply list_elem_of_lookup_2 in Hs. }
  rewrite Hx. apply lookup_lt_Some in Hs.
  rewrite (IH (S a)); [reflexivity | lia | exact Hnum].
Qed.

Lemma read_fields_bad (tok : list string) (n a i : nat) (s : string) :
  (a <= i < a + n)%nat -> tok !! i = Some s -> float s = None ->
  (forall j t, (a <= j < i)%nat -> tok !! j = Some t -> is_Some (float t)) ->
  read_fields (seq a n) tok = Raise ValueError.
Proof.
  revert a. induction n as [|n IH]; intros a Hi Hs Hbad Hnum; [lia|].
  cbn [seq read_fields].
  destruct (decide (a = i)) as [->|Hne].
  - now rewrite Hs, Hbad.
  - destruct (tok !! a) as [t|] eqn:Ht.
    + destruct (Hnum a t ltac:(lia) Ht) as [x Hx]. rewrite Hx.
      rewrite (IH (S a)); [reflexivity | lia | exact Hs | exact Hbad |].
      intros j u Hj. apply Hnum. lia.
    + apply lookup_lt_Some in Hs. apply lookup_ge_None in Ht. lia.
Qed.

(** X3.  [camera_synchronize], [find_pattern], [match_tips],
    [ptpa_find_pads], [ptpa_find_tips] and [find_thermal_die_size] (and
    [align_die]) read their tuple the same way.  On a success response the
    call returns the first [n] comma fields as floats when they are all there
    and numeric, whatever follows them; it raises [IndexError] when the
    payload has fewer than [n] fields, all of them numeric; and it raises
    [ValueError] when one of the first [n] fields is not numeric and the ones
    before it are. *)
Theorem X3_float_tuples (c : call) (n : nat) (w : World) (r : Response)
    (rest : list Response) :
  arity c = Some n -> incoming w = r :: rest -> ok r = true ->
  (forall xs : list pyfloat,
     length xs = n ->
     (forall i x, xs !! i = Some x ->
        exists s, split "," (message r) !! i = Some s /\ float s = Some x) ->
     fst (invoke c w) = Return (RFloats xs)) /\
  ((length (split "," (message r)) < n)%nat ->
   (forall s, In s (split "," (message r)) -> is_Some (float s)) ->
   fst (invoke c w) = Raise IndexError) /\
  (forall (i : nat) (s : string),
     (i < n)%nat -> split "," (message r) !! i = Some s -> float s = None ->
     (forall j t, (j < i)%nat -> split "," (message r) !! j = Some t ->
        is_Some (float t)) ->
     fst (invoke c w) = Raise ValueError).
Proof.
  intros Har Hin Hok.
  rewrite (invoke_reads_fields c n w r rest Har Hin Hok).
  split; [|split].
  - intros xs Hlen Hxs. now rewrite (read_fields_all _ n 0 xs Hlen Hxs).
  - intros Hlen Hnum.
    assert (Hr : (0 <= length (split "," (message r)) < 0 + n)%nat) by lia.
    now rewrite (read_fields_short _ n 0 Hr Hnum).
  - intros i s Hi Hs Hbad Hnum.
    assert (Hr : (0 <= i < 0 + n)%nat) by lia.
    rewrite (read_fields_bad _ n 0 i s Hr Hs Hbad); [reflexivity|].
    intros j t Hj. apply Hnum. lia.
Qed.

(** *** The entries of detect_probetips *)

(** One round of the loop on a well-formed record: the five floats are read
    from its first five tokens, the class id is updated, the entry is
    appended. *)
Lemma tips_loop_step (s : string) (cid : pynum) :
  tip_record s = true ->
  exists xs,
    read_fields (seq 0 5) (tokens s) = Return xs /\
    forall rest found_tips w,
      tips_loop (s :: rest) cid found_tips w =
      tips_loop rest (class_id_after cid s)
        (found_tips ++ [(PyFloat <$> xs) ++ [class_id_after cid s]]) w.
Proof.
  unfold tip_record, tokens. set (tok := split " " (strip s)).
  intros Hrec. apply andb_true_iff in Hrec as [Hfive Hsix].
  unfold numeric_fields in Hfive. cbn [seq forallb] in Hfive.
  apply andb_true_iff in Hfive as [Hn0 Hfive].
  apply andb_true_iff in Hfive as [Hn1 Hfive].
  apply andb_true_iff in Hfive as [Hn2 Hfive].
  apply andb_true_iff in Hfive as [Hn3 Hfive].
  apply andb_true_iff in Hfive as [Hn4 _].
  destruct (numeric_at_inv _ _ Hn0) as (t0 & x0 & Ht0 & Hx0).
  destruct (numeric_at_inv _ _ Hn1) as (t1 & x1 & Ht1 & Hx1).
  destruct (numeric_at_inv _ _ Hn2) as (t2 & x2 & Ht2 & Hx2).
  destruct (numeric_at_inv _ _ Hn3) as (t3 & x3 & Ht3 & Hx3).
  destruct (numeric_at_inv _ _ Hn4) as (t4 & x4 & Ht4 & Hx4).
  exists [x0; x1; x2; x3; x4]. split.
  - cbn [seq read_fields].
    now rewrite Ht0, Hx0, Ht1, Hx1, Ht2, Hx2, Ht3, Hx3, Ht4, Hx4.
  - intros rest found_tips w. cbn [tips_loop]. fold tok.
    rewrite (bind_float_at tok 0), Ht0, Hx0.
    rewrite (bind_float_at tok 1), Ht1, Hx1.
    rewrite (bind_float_at tok 2), Ht2, Hx2.
    rewrite (bind_float_at tok 3), Ht3, Hx3.
    rewrite (bind_float_at tok 4), Ht4, Hx4.
    assert (Hcid :
      ((if (6 <=? length tok)%nat
        then (v <- float_at tok 5 ;; ret (PyFloat v))
        else ret cid) w) = (Return (class_id_after cid s), w)).
    { unfold class_id_after. fold tok.
      destruct (6 <=? length tok)%nat eqn:Hlen; [|reflexivity].
      assert (Hn5 : numeric_at tok 5 = true).
      { apply orb_true_iff in Hsix as [Hlt|Hn5]; [|exact Hn5].
        apply Nat.ltb_lt in Hlt. apply Nat.leb_le in Hlen. lia. }
      destruct (numeric_at_inv _ _ Hn5) as (t & v & Ht & Hv).
      rewrite (bind_float_at tok 5), Ht, Hv. cbn. now rewrite Hv. }
    rewrite (bind_return _ _ _ _ _ Hcid). reflexivity.
Qed.

Lemma carried_snoc (cid : pynum) (records : list string) (n : nat)
    (s : string) :
  records !! n = Some s ->
  carried cid (take (S n) records) =
  class_id_after (carried cid (take n records)) s.
Proof.
  intros Hs. rewrite (take_S_r _ _ _ Hs). unfold carried.
  now rewrite fold_left_app.
Qed.

Lemma carried_default (cid : pynum) (records : list string) :
  (forall t, In t records -> (length (tokens t) < 6)%nat) ->
  carried cid records = cid.
Proof.
  revert cid. induction records as [|s records IH]; intros cid Hall.
  - reflexivity.
  - unfold carried. cbn [fold_left].
    assert (Hs : class_id_after cid s = cid).
    { unfold class_id_after. specialize (Hall s (or_introl eq_refl)).
      unfold tokens in Hall. apply Nat.ltb_lt in Hall.
      rewrite Nat.ltb_antisym in Hall. apply negb_true_iff in Hall.
      now rewrite Hall. }
    rewrite Hs. apply IH. intros t Ht. apply Hall. now right.
Qed.

Lemma tips_loop_entries (str_tips : list string) :
  forallb tip_record str_tips = true ->
  forall (cid : pynum) (found_tips : list (list pynum)) (w : World),
  exists tips,
    tips_loop str_tips cid found_tips w = (Return (found_tips ++ tips), w) /\
    length tips = length str_tips /\
    forall n s, str_tips !! n = Some s ->
      exists xs,
        read_fields (seq 0 5) (tokens s) = Return xs /\
        tips !! n =
          Some ((PyFloat <$> xs) ++ [carried cid (take (S n) str_tips)]).
Proof.
  induction str_tips as [|s rest IH]; intros Hall cid found_tips w.
  - exists []. rewrite app_nil_r. repeat split. intros n s Hs. discriminate.
  - cbn [forallb] in Hall. apply andb_true_iff in Hall as [Hrec Hall].
    destruct (tips_loop_step s cid Hrec) as (xs & Hxs & Hstep).
    rewrite Hstep.
    destruct (IH Hall (class_id_after cid s)
                (found_tips ++ [(PyFloat <$> xs) ++ [class_id_after cid s]])
                w) as (tips & Hrun & Hlen & Hent).
    exists (((PyFloat <$> xs) ++ [class_id_after cid s]) :: tips).
    split; [|split].
    + rewrite Hrun. now rewrite <- app_assoc.
    + cbn. now rewrite Hlen.
    + intros [|n] t Ht.
      * injection Ht as <-. exists xs. split; [exact Hxs | reflexivity].
      * destruct (Hent n t Ht) as (ys & Hys & Hn). exists ys.
        split; [exact Hys | exact Hn].
Qed.

(** A record that is not well formed stops the loop with [IndexError] or
    [ValueError]. *)
Lemma tips_loop_bad_record (s : string) (cid : pynum) (rest : list string)
    (found_tips : list (list pynum)) (w : World) :
  tip_record s = false ->
  tips_loop (s :: rest) cid found_tips w = (Raise IndexError, w) \/
  tips_loop (s :: rest) cid found_tips w = (Raise ValueError, w).
Proof.
  unfold tip_record. set (tok := split " " (strip s)). intros Hrec.
  cbn [tips_loop]. fold tok.
  unfold numeric_fields in Hrec. cbn [seq forallb] in Hrec.
  unfold numeric_at in Hrec.
  rewrite (bind_float_at tok 0).
  destruct (tok !! 0%nat) as [t0|]; [|now left].
  destruct (float t0) as [x0|]; [|now right].
  rewrite (bind_float_at tok 1).
  destruct (tok !! 1%nat) as [t1|]; [|now left].
  destruct (float t1) as [x1|]; [|now right].
  rewrite (bind_float_at tok 2).
  destruct (tok !! 2%nat) as [t2|]; [|now left].
  destruct (float t2) as [x2|]; [|now right].
  rewrite (bind_float_at tok 3).
  destruct (tok !! 3%nat) as [t3|]; [|now left].
  destruct (float t3) as [x3|]; [|now right].
  rewrite (bind_float_at tok 4).
  destruct (tok !! 4%nat) as [t4|]; [|now left].
  destruct (float t4) as [x4|]; [|now right].
  rewrite !bool_decide_eq_true_2 in Hrec by (eexists; reflexivity).
  cbn [andb] in Hrec. apply orb_false_iff in Hrec as [Hlen Hn5].
  apply Nat.ltb_ge in Hlen. apply Nat.leb_le in Hlen. rewrite Hlen.
  change (numeric_at tok 5 = false) in Hn5.
  destruct (numeric_at_false tok 5 w Hn5) as [H5|H5];
    rewrite (bind_raise _ _ _ _ _ (bind_raise _ _ _ _ _ H5)); auto.
Qed.

Lemma tips_loop_bad (str_tips : list string) :
  forallb tip_record str_tips = false ->
  forall (cid : pynum) (found_tips : list (list pynum)) (w : World),
    tips_loop str_tips cid found_tips w = (Raise IndexError, w) \/
    tips_loop str_tips cid found_tips w = (Raise ValueError, w).
Proof.
  induction str_tips as [|s rest IH]; intros Hall cid found_tips w.
  - discriminate Hall.
  - cbn [forallb] in Hall. destruct (tip_record s) eqn:Hrec.
    + destruct (tips_loop_step s cid Hrec) as (xs & _ & Hstep).
      rewrite Hstep. apply IH. exact Hall.
    + apply tips_loop_bad_record, Hrec.
Qed.

(** X4.  On a success response whose records are all well formed,
    [detect_probetips] returns one entry per comma-separated record, in the
    order of the response.  Entry [n] is the first five tokens of record [n]
    as floats, followed by a class id: the sixth token as a float when the
    record has one, and the integer [0] when neither this record nor any
    before it has a sixth token. *)
Theorem X4_detect_probetips_entries (camera : CameraMountPoint)
    (detector : DetectionAlgorithm) (coords : DetectionCoordindates)
    (w : World) (r : Response) (rest : list Response) :
  incoming w = r :: rest -> ok r = true ->
  forallb tip_record (split "," (message r)) = true ->
  exists tips,
    fst (detect_probetips camera detector coords w) = Return tips /\
    length tips = length (split "," (message r)) /\
    forall n s, split "," (message r) !! n = Some s ->
      exists xs cid,
        read_fields (seq 0 5) (tokens s) = Return xs /\
        tips !! n = Some ((PyFloat <$> xs) ++ [cid]) /\
        (forall t v, tokens s !! 5%nat = Some t -> float t = Some v ->
           cid = PyFloat v) /\
        ((forall m t, (m <= n)%nat -> split "," (message r) !! m = Some t ->
            (length (tokens t) < 6)%nat) ->
         cid = PyInt 0).
Proof.
  intros Hin Hok Hall. unfold detect_probetips.
  rewrite (exchange_succeeds _ _ w r rest Hin Hok). cbv zeta.
  set (records := split "," (message r)) in *.
  match goal with |- context [tips_loop records _ _ ?w'] => set (w1 := w') end.
  destruct (tips_loop_entries records Hall (PyInt 0) [] w1)
    as (tips & Hrun & Hlen & Hent).
  exists tips. rewrite Hrun. split; [reflexivity | split; [exact Hlen|]].
  intros n s Hs. destruct (Hent n s Hs) as (xs & Hxs & Hn).
  exists xs, (carried (PyInt 0) (take (S n) records)).
  split; [exact Hxs | split; [exact Hn | split]].
  - intros t v Ht Hv. rewrite (carried_snoc _ _ _ _ Hs).
    unfold class_id_after. unfold tokens in Ht.
    apply lookup_lt_Some in Ht as Hlt.
    assert (Hlen6 : (6 <=? length (split " " (strip s)))%nat = true)
      by (apply Nat.leb_le; lia).
    rewrite Hlen6, Ht. cbn. now rewrite Hv.
  - intros Hnone. apply carried_default. intros t Ht.
    apply list_elem_of_In in Ht. apply list_elem_of_lookup in Ht as [m Hm].
    apply lookup_take_Some in Hm as [Hm Hlt].
    apply (Hnone m t); [lia | exact Hm].
Qed.

(** X5.  On a success response, [detect_probetips] returns exactly when
    every comma-separated record is well formed (five numeric tokens, and a
    numeric sixth if there is one); otherwise it raises [IndexError] or
    [ValueError] and hands back no entries at all, not even those of the
    records before the bad one. *)
Theorem X5_detect_probetips_all_or_nothing (camera : CameraMountPoint)
    (detector : DetectionAlgorithm) (coords : DetectionCoordindates)
    (w : World) (r : Response) (rest : list Response) :
  incoming w = r :: rest -> ok r = true ->
  ((exists tips, fst (detect_probetips camera detector coords w) = Return tips)
   <-> forallb tip_record (split "," (message r)) = true) /\
  (forallb tip_record (split "," (message r)) = false ->
   fst (detect_probetips camera detector coords w) = Raise IndexError \/
   fst (detect_probetips camera detector coords w) = Raise ValueError).
Proof.
  intros Hin Hok. unfold detect_probetips.
  rewrite (exchange_succeeds _ _ w r rest Hin Hok). cbv zeta.
  set (records := split "," (message r)).
  match goal with |- context [tips_loop records _ _ ?w'] => set (w1 := w') end.
  assert (Hbad : forallb tip_record records = false ->
    fst (tips_loop records (PyInt 0) [] w1) = Raise IndexError \/
    fst (tips_loop records (PyInt 0) [] w1) = Raise ValueError).
  { intros Hall.
    destruct (tips_loop_bad records Hall (PyInt 0) [] w1) as [-> | ->];
      [now left | now right]. }
  split; [split|exact Hbad].
  - intros [tips Hret].
    destruct (forallb tip_record records) eqn:Hall; [reflexivity|].
    destruct (Hbad eq_refl) as [He | He]; rewrite He in Hret; discriminate.
  - intros Hall.
    destruct (tips_loop_ok records Hall (PyInt 0) [] w1) as [tips ->].
    now exists tips.
Qed.

(** *** auto_focus *)

Lemma upper_of_lower_char (c : ascii) :
  upper_char (lower_char c) = upper_char c.
Proof. destruct c as [[] [] [] [] [] [] [] []]; reflexivity. Qed.

Lemma lower_char_idem (c : ascii) : lower_char (lower_char c) = lower_char c.
Proof. destruct c as [[] [] [] [] [] [] [] []]; reflexivity. Qed.

Lemma lower_idem (s : string) : lower (lower s) = lower s.
Proof.
  induction s as [|c s IH]; [reflexivity|].
  unfold lower in *. cbn [map_string]. now rewrite lower_char_idem, IH.
Qed.

(** [capitalize] sees a name only up to letter case. *)
Lemma capitalize_caseless (a b : string) :
  lower a = lower b -> capitalize a = capitalize b.
Proof.
  destruct a as [|c a], b as [|d b]; try discriminate; [reflexivity|].
  unfold lower. cbn [map_string capitalize]. intros Heq.
  injection Heq as Hc Hs. fold (lower a) in Hs. fold (lower b) in Hs.
  rewrite <- (upper_of_lower_char c), <- (upper_of_lower_char d), Hc.
  now rewrite Hs.
Qed.

(** X6.  On a success response, [auto_focus] reads the height from the first
    comma field and looks the axis up by the second field's name, capitalised
    -- so the name counts up to letter case; it raises [KeyError] when no
    axis has that name, [IndexError] when the payload has a numeric height
    and no second field, and [ValueError] when the height is not numeric,
    whatever the second field says. *)
Theorem X6_auto_focus (af_cmd : AutoFocusCmd) (w : World) (r : Response)
    (rest : list Response) :
  incoming w = r :: rest -> ok r = true ->
  (forall (t0 t1 name : string) (more : list string) (h : pyfloat),
     split "," (message r) = t0 :: t1 :: more -> float t0 = Some h ->
     lower name = lower t1 ->
     fst (auto_focus af_cmd w) =
     match MoveAxis_by_name (capitalize name) with
     | Some axis => Return (h, axis)
     | None => Raise KeyError
     end) /\
  (forall (t0 : string) (h : pyfloat),
     split "," (message r) = [t0] -> float t0 = Some h ->
     fst (auto_focus af_cmd w) = Raise IndexError) /\
  (forall (t0 : string) (more : list string),
     split "," (message r) = t0 :: more -> float t0 = None ->
     fst (auto_focus af_cmd w) = Raise ValueError).
Proof.
  intros Hin Hok. unfold auto_focus.
  rewrite (run_send_cmd _ _ w r rest Hin), Hok. cbv zeta.
  split; [|split].
  - intros t0 t1 name more h Hs Hh Hname.
    rewrite Hs, (bind_float_at _ 0). cbn [lookup list_lookup]. rewrite Hh.
    unfold bind, index. cbn [lookup list_lookup]. unfold ret at 1.
    rewrite (capitalize_caseless name t1 Hname).
    now destruct (MoveAxis_by_name (capitalize t1)).
  - intros t0 h Hs Hh.
    rewrite Hs, (bind_float_at _ 0). cbn [lookup list_lookup]. rewrite Hh.
    reflexivity.
  - intros t0 more Hs Hh.
    rewrite Hs, (bind_float_at _ 0). cbn [lookup list_lookup]. rewrite Hh.
    reflexivity.
Qed.

(** *** snap_image and the local files *)

(** X7.  A local snapshot writes only what a success response decodes to.
    When the instrument reports failure the call raises [ProberException]
    with its message; when the payload is not base64 it raises the decoding
    error; when the path cannot be written it raises [OSError]; and in all
    three cases the local files stay as they were. *)
Theorem X7_snap_image_no_partial_write (file : string) (what : SnapshotType)
    (w : World) (r : Response) (rest : list Response) :
  incoming w = r :: rest ->
  (ok r = false ->
   fst (snap_image file what Local w) = Raise (ProberException (message r)) /\
   files (snd (snap_image file what Local w)) = files w) /\
  (ok r = true -> b64decode (message r) = None ->
   fst (snap_image file what Local w) = Raise Base64Error /\
   files (snd (snap_image file what Local w)) = files w) /\
  (ok r = true -> writable w file = false ->
   forall data, b64decode (message r) = Some data ->
   fst (snap_image file what Local w) = Raise OSError /\
   files (snd (snap_image file what Local w)) = files w).
Proof.
  intros Hin. unfold snap_image.
  destruct (decide (Local = Local)) as [_|Hn]; [|contradiction].
  rewrite (run_exchange _ _ w r rest Hin).
  split; [|split].
  - intros ->. split; reflexivity.
  - intros -> Hdec. unfold bind. rewrite Hdec. split; reflexivity.
  - intros -> Hwr data Hdec. unfold bind, write_file, ret. rewrite Hdec.
    cbn [writable exchanged]. rewrite Hwr. split; reflexivity.
Qed.

(** *** What the parsing of a payload leaves alone *)

Lemma untouched_ret {A} (a : A) : untouched (ret a).
Proof. intros w. reflexivity. Qed.

Lemma untouched_raise {A} (e : exn) : untouched (raise (A := A) e).
Proof. intros w. reflexivity. Qed.

Lemma untouched_bind {A B} (m : M A) (k : A -> M B) :
  untouched m -> (forall a, untouched (k a)) -> untouched (bind m k).
Proof.
  intros Hm Hk w. unfold bind. specialize (Hm w).
  destruct (m w) as [[a|e] w']; cbn [snd] in Hm; subst w'.
  - apply Hk.
  - reflexivity.
Qed.

Lemma untouched_index {A} (l : list A) (i : nat) : untouched (index l i).
Proof.
  unfold index.
  destruct (l !! i); [apply untouched_ret | apply untouched_raise].
Qed.

Lemma untouched_to_float (s : string) : untouched (to_float s).
Proof.
  unfold to_float.
  destruct (float s); [apply untouched_ret | apply untouched_raise].
Qed.

Lemma untouched_float_at (tok : list string) (i : nat) :
  untouched (float_at tok i).
Proof.
  apply untouched_bind;
    [apply untouched_index | intros s; apply untouched_to_float].
Qed.

Ltac solve_untouched :=
  repeat first
    [ apply untouched_ret
    | apply untouched_raise
    | apply untouched_float_at
    | apply untouched_index
    | apply untouched_to_float
    | apply untouched_bind; [|intros ?]
    | match goal with
      | |- untouched (match ?x with _ => _ end) => destruct x
      end
    | progress cbv zeta beta ].

Lemma untouched_tips_loop (str_tips : list string) :
  forall (cid : pynum) (found_tips : list (list pynum)),
    untouched (tips_loop str_tips cid found_tips).
Proof.
  induction str_tips as [|s rest IH]; intros cid found_tips.
  - apply untouched_ret.
  - cbn [tips_loop]. solve_untouched; apply IH.
Qed.

(** The world after an exchange whose continuation only parses. *)
Lemma exchange_world {A} (cmd : string) (k : Response -> M A) (w : World) :
  (forall resp, untouched (k resp)) ->
  snd ((send cmd ;;; resp <- read_checked ;; k resp) w) =
  match incoming w with
  | r :: rest => exchanged cmd r rest w
  | [] => only_sent cmd w
  end.
Proof.
  intros Hk. destruct (incoming w) as [|r rest] eqn:Hin.
  - now rewrite (exchange_idle _ _ _ Hin).
  - rewrite (run_exchange _ _ w r rest Hin).
    destruct (ok r); [apply Hk | reflexivity].
Qed.

Lemma send_cmd_world {A} (cmd : string) (k : Response -> M A) (w : World) :
  (forall resp, untouched (k resp)) ->
  snd ((resp <- send_cmd cmd ;; k resp) w) =
  match incoming w with
  | r :: rest => exchanged cmd r rest w
  | [] => only_sent cmd w
  end.
Proof.
  intros Hk. destruct (incoming w) as [|r rest] eqn:Hin.
  - now rewrite (send_cmd_idle _ _ _ Hin).
  - rewrite (run_send_cmd _ _ w r rest Hin).
    destruct (ok r); [apply Hk | reflexivity].
Qed.

Lemma files_after_exchange (cmd : string) (w : World) :
  files (match incoming w with
         | r :: rest => exchanged cmd r rest w
         | [] => only_sent cmd w
         end) = files w.
Proof. now destruct (incoming w). Qed.

Ltac parsing_keeps_files :=
  rewrite exchange_world by (intros ?; solve_untouched);
  now rewrite files_after_exchange.

(** X8.  The local snapshot is the only call that touches the local files,
    and it touches only the file it is given: every other call, and the local
    snapshot at every other path, leaves a file's content as it was --
    however the call ends. *)
Theorem X8_files_frame (c : call) (w : World) (path : string) :
  writes_to c <> Some path ->
  files (snd (invoke c w)) !! path = files w !! path.
Proof.
  intros Hpath.
  destruct c; cbn [invoke writes_to] in *; rewrite snd_fmap_call.
  - unfold align_wafer.
    destruct (decide (mode = AlignOnly)); parsing_keeps_files.
  - unfold align_die. parsing_keeps_files.
  - unfold auto_focus.
    rewrite send_cmd_world by (intros ?; solve_untouched).
    now rewrite files_after_exchange.
  - unfold camera_synchronize. parsing_keeps_files.
  - unfold detect_probetips.
    rewrite exchange_world by (intros ?; apply untouched_tips_loop).
    now rewrite files_after_exchange.
  - unfold enable_follow_mode. parsing_keeps_files.
  - unfold find_home. parsing_keeps_files.
  - unfold find_pattern. parsing_keeps_files.
  - unfold has_camera. parsing_keeps_files.
  - reflexivity.
  - unfold remove_probetip_marker. parsing_keeps_files.
  - unfold match_tips. parsing_keeps_files.
  - unfold snap_image.
    destruct (decide (where_ = Local)); [|parsing_keeps_files].
    destruct (incoming w) as [|r rest] eqn:Hin.
    + now rewrite (exchange_idle _ _ _ Hin).
    + rewrite (run_exchange _ _ w r rest Hin).
      destruct (ok r); [|reflexivity].
      unfold bind, write_file, ret, raise.
      destruct (b64decode (message r)) as [data|]; [|reflexivity].
      cbn [writable exchanged].
      destruct (writable w file); [|reflexivity].
      cbn [snd files]. apply lookup_insert_ne. congruence.
  - unfold switch_light. parsing_keeps_files.
  - reflexivity.
  - unfold ptpa_find_pads. parsing_keeps_files.
  - unfold ptpa_find_tips. parsing_keeps_files.
  - unfold start_fast_track.
    destruct (incoming w) as [|r rest] eqn:Hin.
    + now rewrite (send_cmd_alone_idle _ _ Hin).
    + rewrite (run_send_cmd_alone _ w r rest Hin). now destruct (ok r).
  - unfold start_execute_compensation. parsing_keeps_files.
  - unfold find_thermal_die_size. parsing_keeps_files.
  - unfold get_lens_zoom_level. parsing_keeps_files.
  - unfold set_lens_zoom_level. parsing_keeps_files.
  - unfold get_light_status. parsing_keeps_files.
Qed.

(** *** When the domain error is raised *)

Lemma np_ret {A} (a : A) : no_prober_exception (ret a).
Proof. intros w msg. discriminate. Qed.

Lemma np_raise {A} (e : exn) :
  (forall msg, e <> ProberException msg) ->
  no_prober_exception (raise (A := A) e).
Proof. intros He w msg Heq. injection Heq as Heq. now apply (He msg). Qed.

Lemma np_bind {A B} (m : M A) (k : A -> M B) :
  no_prober_exception m -> (forall a, no_prober_exception (k a)) ->
  no_prober_exception (bind m k).
Proof.
  intros Hm Hk w msg. unfold bind. specialize (Hm w msg).
  destruct (m w) as [[a|e] w']; cbn [fst] in *; [apply Hk|].
  intros Heq. apply Hm. injection Heq as ->. reflexivity.
Qed.

Lemma np_index {A} (l : list A) (i : nat) : no_prober_exception (index l i).
Proof.
  unfold index. destruct (l !! i); [apply np_ret|].
  apply np_raise. discriminate.
Qed.

Lemma np_to_float (s : string) : no_prober_exception (to_float s).
Proof.
  unfold to_float. destruct (float s); [apply np_ret|].
  apply np_raise. discriminate.
Qed.

Lemma np_float_at (tok : list string) (i : nat) :
  no_prober_exception (float_at tok i).
Proof. apply np_bind; [apply np_index | intros s; apply np_to_float]. Qed.

Lemma np_write_file (path : string) (data : list Byte.byte) :
  no_prober_exception (write_file path data).
Proof.
  intros w msg. unfold write_file. destruct (writable w path); discriminate.
Qed.

Ltac solve_np :=
  repeat first
    [ apply np_ret
    | apply np_float_at
    | apply np_index
    | apply np_to_float
    | apply np_write_file
    | apply np_raise; discriminate
    | apply np_bind; [|intros ?]
    | match goal with
      | |- no_prober_exception (match ?x with _ => _ end) => destruct x
      end
    | progress cbv zeta beta ].

Lemma np_tips_loop (str_tips : list string) :
  forall (cid : pynum) (found_tips : list (list pynum)),
    no_prober_exception (tips_loop str_tips cid found_tips).
Proof.
  induction str_tips as [|s rest IH]; intros cid found_tips.
  - apply np_ret.
  - cbn [tips_loop]. solve_np; apply IH.
Qed.

Lemma np_fmap {A B} (f : A -> B) (m : M A) (w : World) (msg : string) :
  fst (m w) <> Raise (ProberException msg) ->
  fst (fmap_call f m w) <> Raise (ProberException msg).
Proof.
  rewrite fmap_call_run. destruct (m w) as [[a|e] w']; cbn [fst]; congruence.
Qed.

Ltac success_np Hin Hok :=
  rewrite (exchange_succeeds _ _ _ _ _ Hin Hok);
  match goal with
  | |- fst (?k ?r ?w') <> Raise (ProberException ?msg) =>
      cut (no_prober_exception (k r)); [intros Hnp; apply Hnp | solve_np]
  end.

Lemma success_never_prober_exception (c : call) (w : World) (r : Response)
    (rest : list Response) (msg : string) :
  incoming w = r :: rest -> ok r = true ->
  fst (invoke c w) <> Raise (ProberException msg).
Proof.
  intros Hin Hok. destruct c; cbn [invoke]; apply np_fmap.
  - unfold align_wafer.
    destruct (decide (mode = AlignOnly)); success_np Hin Hok.
  - unfold align_die. success_np Hin Hok.
  - unfold auto_focus. rewrite (run_send_cmd _ _ w r rest Hin), Hok.
    match goal with
    | |- fst (?k ?r ?w') <> _ =>
        cut (no_prober_exception (k r)); [intros Hnp; apply Hnp | solve_np]
    end.
  - unfold camera_synchronize. success_np Hin Hok.
  - unfold detect_probetips.
    rewrite (exchange_succeeds _ _ _ _ _ Hin Hok). apply np_tips_loop.
  - unfold enable_follow_mode. success_np Hin Hok.
  - unfold find_home. success_np Hin Hok.
  - unfold find_pattern. success_np Hin Hok.
  - unfold has_camera. success_np Hin Hok.
  - discriminate.
  - unfold remove_probetip_marker. success_np Hin Hok.
  - unfold match_tips. success_np Hin Hok.
  - unfold snap_image.
    destruct (decide (where_ = Local)); success_np Hin Hok.
  - unfold switch_light. success_np Hin Hok.
  - discriminate.
  - unfold ptpa_find_pads. success_np Hin Hok.
  - unfold ptpa_find_tips. success_np Hin Hok.
  - unfold start_fast_track.
    rewrite (run_send_cmd_alone _ w r rest Hin), Hok. discriminate.
  - unfold start_execute_compensation.
    rewrite (exchange_succeeds _ _ _ _ _ Hin Hok), Hok. discriminate.
  - unfold find_thermal_die_size. success_np Hin Hok.
  - unfold get_lens_zoom_level. success_np Hin Hok.
  - unfold set_lens_zoom_level. success_np Hin Hok.
  - unfold get_light_status. success_np Hin Hok.
Qed.

(** X9.  A call that reads a response raises [ProberException] exactly when
    the instrument reports failure, and then with the instrument's message:
    nothing in the parsing of a success payload, however malformed, is ever
    reported as the domain error. *)
Theorem X9_domain_error_iff_failure (c : call) (w : World) (r : Response)
    (rest : list Response) (msg : string) :
  checked c = true -> incoming w = r :: rest ->
  (fst (invoke c w) = Raise (ProberException msg) <->
   ok r = false /\ msg = message r).
Proof.
  intros Hc Hin. split.
  - intros Hraise. destruct (ok r) eqn:Hok.
    + now destruct (success_never_prober_exception c w r rest msg Hin Hok).
    + rewrite (invoke_fails c w r rest Hc Hin Hok) in Hraise.
      injection Hraise as ->. now split.
  - intros [Hok ->]. exact (invoke_fails c w r rest Hc Hin Hok).
Qed.

(** *** Whitespace around a payload *)

Lemma all_space_cons (c : ascii) (s : string) :
  all_space (String c s) = isspace c && all_space s.
Proof. reflexivity. Qed.

Lemma lstrip_decomp (s : string) :
  exists l, all_space l = true /\ s = l +:+ lstrip s.
Proof.
  induction s as [|c s (l & Hl & Hs)].
  - exists "". split; reflexivity.
  - rewrite lstrip_cons. destruct (isspace c) eqn:Hc.
    + exists (String c l). split.
      * now rewrite all_space_cons, Hc, Hl.
      * rewrite append_cons. now rewrite <- Hs.
    + exists "". split; reflexivity.
Qed.

Lemma rstrip_decomp (s : string) :
  exists t, all_space t = true /\ s = rstrip s +:+ t.
Proof.
  induction s as [|c s (t & Ht & Hs)].
  - exists "". split; reflexivity.
  - rewrite rstrip_cons. destruct (rstrip s) as [|d u] eqn:Hr.
    + rewrite append_nil in Hs. subst s. destruct (isspace c) eqn:Hc.
      * exists (String c t). split; [|reflexivity].
        now rewrite all_space_cons, Hc, Ht.
      * exists t. split; [exact Ht | reflexivity].
    + exists t. split; [exact Ht|]. rewrite append_cons. now rewrite <- Hs.
Qed.

Lemma strip_one_inv (m : string) :
  strip m = "1" ->
  exists l t,
    all_space l = true /\ all_space t = true /\ m = l +:+ "1" +:+ t.
Proof.
  unfold strip. intros Hm.
  destruct (lstrip_decomp m) as (l & Hl & Hml).
  destruct (rstrip_decomp (lstrip m)) as (t & Ht & Hmt).
  rewrite Hm in Hmt. exists l, t. repeat split; try assumption.
  now rewrite <- Hmt.
Qed.

Lemma float_lstrip_cons (c : ascii) (s : string) :
  float_lstrip (String c s) =
  if float_isspace c then float_lstrip s else String c s.
Proof. reflexivity. Qed.

Lemma float_rstrip_cons (c : ascii) (s : string) :
  float_rstrip (String c s) =
  match float_rstrip s with
  | EmptyString =>
      if float_isspace c then EmptyString else String c EmptyString
  | r => String c r
  end.
Proof. reflexivity. Qed.

Lemma all_float_space_cons (c : ascii) (s : string) :
  all_float_space (String c s) = float_isspace c && all_float_space s.
Proof. reflexivity. Qed.

Lemma float_lstrip_app_space (l s : string) :
  all_float_space l = true -> float_lstrip (l +:+ s) = float_lstrip s.
Proof.
  induction l as [|c l IH]; [reflexivity|].
  rewrite all_float_space_cons. intros Hl.
  apply andb_true_iff in Hl as [Hc Hl].
  rewrite append_cons, float_lstrip_cons, Hc. now apply IH.
Qed.

Lemma float_lstrip_all_space (t : string) :
  all_float_space t = true -> float_lstrip t = "".
Proof.
  induction t as [|c t IH]; [reflexivity|].
  rewrite all_float_space_cons, float_lstrip_cons. intros Ht.
  apply andb_true_iff in Ht as [-> Ht]. now apply IH.
Qed.

Lemma float_rstrip_all_space (t : string) :
  all_float_space t = true -> float_rstrip t = "".
Proof.
  induction t as [|c t IH]; [reflexivity|].
  rewrite all_float_space_cons. intros Ht.
  apply andb_true_iff in Ht as [Hc Ht].
  now rewrite float_rstrip_cons, (IH Ht), Hc.
Qed.

Lemma float_rstrip_app_space (s t : string) :
  all_float_space t = true -> float_rstrip (s +:+ t) = float_rstrip s.
Proof.
  intros Ht. induction s as [|c s IH].
  - rewrite append_nil. now apply float_rstrip_all_space.
  - now rewrite append_cons, !float_rstrip_cons, IH.
Qed.

Lemma float_strip_app_space (s t : string) :
  all_float_space t = true -> float_strip (s +:+ t) = float_strip s.
Proof.
  intros Ht. unfold float_strip. induction s as [|c s IH].
  - rewrite append_nil. now rewrite (float_lstrip_all_space _ Ht).
  - rewrite append_cons, !float_lstrip_cons.
    destruct (float_isspace c); [exact IH|].
    rewrite <- append_cons. now apply float_rstrip_app_space.
Qed.

(** The whitespace [float] skips, on either side of a text, does not reach
    the number. *)
Lemma float_strip_padded (l s t : string) :
  all_float_space l = true -> all_float_space t = true ->
  float_strip (l +:+ s +:+ t) = float_strip s.
Proof.
  intros Hl Ht. unfold float_strip at 1.
  rewrite (float_lstrip_app_space _ _ Hl). now apply float_strip_app_space.
Qed.

Lemma float_padded (l s t : string) :
  all_float_space l = true -> all_float_space t = true ->
  float (l +:+ s +:+ t) = float s.
Proof.
  intros Hl Ht. unfold float. now rewrite (float_strip_padded l s t Hl Ht).
Qed.

(** X10.  On a success response and for every payload, [has_camera] returns
    [true] exactly when the payload is ["1"] to the character, and
    [get_light_status] returns [true] exactly when the payload is ["1"] with
    any whitespace, or none, on either side; every other payload -- ["true"],
    ["on"], ["01"], ["1.0"] -- is [false], not an error. *)
Theorem X10_truth_of_a_payload (camera : CameraMountPoint) (w : World)
    (r : Response) (rest : list Response) :
  incoming w = r :: rest -> ok r = true ->
  exists b1 b2 : bool,
    fst (has_camera camera w) = Return b1 /\
    fst (get_light_status camera w) = Return b2 /\
    (b1 = true <-> message r = "1") /\
    (b2 = true <->
     exists l t, all_space l = true /\ all_space t = true /\
                 message r = l +:+ "1" +:+ t).
Proof.
  intros Hin Hok.
  exists (String.eqb (message r) "1"), (String.eqb (strip (message r)) "1").
  split; [exact (has_camera_run camera w r rest Hin Hok)|].
  split; [exact (get_light_status_run camera w r rest Hin Hok)|].
  split; [apply String.eqb_eq|]. rewrite String.eqb_eq. split.
  - apply strip_one_inv.
  - intros (l & t & Hl & Ht & ->). now apply strip_padded_one.
Qed.

(** X11.  [get_lens_zoom_level] converts the whole payload of a success
    response, not a comma field of it, and the whitespace [float] skips
    around a number -- spaces, tabs, a trailing line end -- does not matter:
    the call returns the float the text between that whitespace denotes, and
    raises [ValueError] when that text is not a number. *)
Theorem X11_get_lens_zoom_level (w : World) (r : Response)
    (rest : list Response) (l s t : string) :
  incoming w = r :: rest -> ok r = true ->
  all_float_space l = true -> all_float_space t = true ->
  message r = l +:+ s +:+ t ->
  fst (get_lens_zoom_level w) =
  match float s with
  | Some x => Return x
  | None => Raise ValueError
  end.
Proof.
  intros Hin Hok Hl Ht Hm. unfold get_lens_zoom_level.
  rewrite (exchange_succeeds _ _ w r rest Hin Hok). unfold to_float.
  rewrite Hm, (float_padded l s t Hl Ht). now destruct (float s).
Qed.

End Claims.

(** *** The properties at concrete calls *)

Lemma C3_one_exchange_per_call_witness :
  exists cmd,
    trace (snd (invoke' (SnapImage' "tip.jpg" Sample.camera_raw Sample.local)
                  (fresh [success "aGk="; success ""]))) =
      [Send cmd; ReadLine (success "aGk=")] /\
    incoming (snd (invoke' (SnapImage' "tip.jpg" Sample.camera_raw
                              Sample.local)
                     (fresh [success "aGk="; success ""]))) = [success ""].
Proof.
  apply (@C3_one_exchange_per_call Sample.enums Sample.library
           (SnapImage' "tip.jpg" Sample.camera_raw Sample.local)
           (fresh [success "aGk="; success ""]) (success "aGk=")
           [success ""]);
    reflexivity.
Defined.

(** C3 as stated fails twice over.  The local snapshot is one exchange, not
    two: a second pending line is left alone.  And [switch_all_lights] and
    [switch_camera] read no line at all. *)
Lemma C3_counterexample :
  (trace (snd (snap_image' "tip.jpg" Sample.camera_raw Sample.local
                 (fresh [success "aGk="; success ""]))) =
     [Send "vis:snap_image **download**, cameraraw";
      ReadLine (success "aGk=")] /\
   incoming (snd (snap_image' "tip.jpg" Sample.camera_raw Sample.local
                    (fresh [success "aGk="; success ""]))) = [success ""]) /\
  (trace (snd (switch_all_lights true (fresh [success ""]))) =
     [Send "vis:switch_all_lights True"] /\
   reads (snd (switch_all_lights true (fresh [success ""]))) = 0%nat /\
   incoming (snd (switch_all_lights true (fresh [success ""]))) =
     [success ""]) /\
  (trace (snd (switch_camera' Sample.scope (fresh [success ""]))) =
     [Send "vis:switch_camera scope"] /\
   reads (snd (switch_camera' Sample.scope (fresh [success ""]))) = 0%nat /\
   incoming (snd (switch_camera' Sample.scope (fresh [success ""]))) =
     [success ""]).
Proof. repeat split; vm_compute; reflexivity. Qed.

Lemma C4_boolean_operations_witness :
  (fst (has_camera' Sample.scope (fresh [success "1"])) =
     Return (caseless_eqb "1" "1") /\
   fst (get_light_status' Sample.scope (fresh [success "1"])) =
     Return (caseless_eqb "1" "1") /\
   (caseless_eqb "1" "1" = true <-> "1" = "1")) /\
  (fst (has_camera' Sample.scope (fresh [success "0"])) =
     Return (caseless_eqb "0" "1") /\
   fst (get_light_status' Sample.scope (fresh [success "0"])) =
     Return (caseless_eqb "0" "1") /\
   (caseless_eqb "0" "1" = true <-> "0" = "1")).
Proof.
  split.
  - apply (@C4_boolean_operations Sample.enums Sample.scope
             (fresh [success "1"]) (success "1") []);
      reflexivity.
  - apply (@C4_boolean_operations Sample.enums Sample.scope
             (fresh [success "0"]) (success "0") []);
      reflexivity.
Defined.

Lemma C5_align_wafer_command_witness :
  sent (snd (align_wafer' Sample.align_only (fresh [success ""]))) =
    ["vis:align_wafer"] /\
  sent (snd (align_wafer' Sample.update_die_size (fresh [success ""]))) =
    ["vis:align_wafer updatediesize"].
Proof.
  split.
  - apply (proj1 (@C5_align_wafer_command Sample.enums Sample.align_only
                    (fresh [success ""]))).
    reflexivity.
  - apply (proj2 (@C5_align_wafer_command Sample.enums
                    Sample.update_die_size (fresh [success ""]))).
    discriminate.
Defined.

Lemma C6_snap_image_witness :
  (sent (snd (snap_image' "tip.jpg" Sample.camera_raw Sample.local
                (fresh [success "aGk="]))) =
     ["vis:snap_image **download**, cameraraw"] /\
   fst (snap_image' "tip.jpg" Sample.camera_raw Sample.local
          (fresh [success "aGk="])) = Return tt /\
   files (snd (snap_image' "tip.jpg" Sample.camera_raw Sample.local
                 (fresh [success "aGk="]))) !! "tip.jpg" =
     Some [Byte.x68; Byte.x69]) /\
  (sent (snd (snap_image' "tip.jpg" Sample.camera_raw Sample.prober
                (fresh [success ""]))) =
     ["vis:snap_image tip.jpg, cameraraw"] /\
   files (snd (snap_image' "tip.jpg" Sample.camera_raw Sample.prober
                 (fresh [success ""]))) = ∅).
Proof.
  split.
  - destruct (proj1 (@C6_snap_image Sample.enums Sample.library "tip.jpg"
                       Sample.camera_raw Sample.local
                       (fresh [success "aGk="]))
                eq_refl) as [Hsent Hfile].
    split; [exact Hsent|].
    destruct (Hfile (success "aGk=") [] [Byte.x68; Byte.x69]
                eq_refl eq_refl eq_refl eq_refl) as [Hret Hfiles].
    split; [exact Hret|]. rewrite Hfiles. reflexivity.
  - apply (proj2 (@C6_snap_image Sample.enums Sample.library "tip.jpg"
                    Sample.camera_raw Sample.prober (fresh [success ""]))).
    discriminate.
Defined.

Lemma C7_align_die_witness :
  fst (align_die' (PyFloat (lit "0.05")) (fresh [success "1.0,2.0,3.0"])) =
    Return (lit "1.0", lit "2.0", lit "3.0") /\
  (fst (align_die' (PyFloat (lit "0.05")) (fresh [success "1.0,2.0"])) =
     Raise IndexError \/
   fst (align_die' (PyFloat (lit "0.05")) (fresh [success "1.0,2.0"])) =
     Raise ValueError).
Proof.
  split.
  - apply (proj1 (proj2 (@C7_align_die Sample.library (PyFloat (lit "0.05"))
                           (fresh [success "1.0,2.0,3.0"])
                           (success "1.0,2.0,3.0") [] eq_refl eq_refl))).
    reflexivity.
  - apply (proj2 (proj2 (@C7_align_die Sample.library (PyFloat (lit "0.05"))
                           (fresh [success "1.0,2.0"])
                           (success "1.0,2.0") [] eq_refl eq_refl))).
    reflexivity.
Defined.


Lemma C9_checked_methods_witness :
  fst (invoke' (SnapImage' "tip.jpg" Sample.camera_raw Sample.local)
         (fresh [failure "no camera"])) =
    Raise (ProberException "no camera") /\
  exists v,
    fst (invoke' (SnapImage' "tip.jpg" Sample.camera_raw Sample.local)
           (fresh [success "aGk="])) = Return v.
Proof.
  split.
  - apply (proj1 (@C9_checked_methods Sample.enums Sample.library
                    (SnapImage' "tip.jpg" Sample.camera_raw Sample.local)
                    (fresh [failure "no camera"]) (failure "no camera") []
                    eq_refl eq_refl)).
    reflexivity.
  - apply (proj2 (@C9_checked_methods Sample.enums Sample.library
                    (SnapImage' "tip.jpg" Sample.camera_raw Sample.local)
                    (fresh [success "aGk="]) (success "aGk=") []
                    eq_refl eq_refl)).
    + reflexivity.
    + reflexivity.
    + intros path _. reflexivity.
Defined.

(** C9 as stated fails.  A local snapshot whose payload is sound base64
    raises [OSError] when its file cannot be opened for writing; a tip record
    whose tokens are two spaces apart raises [ValueError], since the method
    splits at single spaces; and so does the empty response, in which the
    method finds one empty record. *)
Lemma C9_counterexample :
  (checked (SnapImage' "tip.jpg" Sample.camera_raw Sample.local) = true /\
   well_formed' (SnapImage' "tip.jpg" Sample.camera_raw Sample.local)
     "aGk=" = true /\
   fst (invoke' (SnapImage' "tip.jpg" Sample.camera_raw Sample.local)
          (mkWorld [success "aGk="] [] ∅ (fun _ => false))) =
     Raise OSError) /\
  (checked (DetectProbetips' Sample.scope Sample.probe_detector Sample.roi) =
     true /\
   well_formed' (DetectProbetips' Sample.scope Sample.probe_detector
                   Sample.roi) "10  20 5 5 0.9" = true /\
   fst (invoke' (DetectProbetips' Sample.scope Sample.probe_detector
                   Sample.roi)
          (fresh [success "10  20 5 5 0.9"])) = Raise ValueError) /\
  (well_formed' (DetectProbetips' Sample.scope Sample.probe_detector
                   Sample.roi) "" = true /\
   fst (invoke' (DetectProbetips' Sample.scope Sample.probe_detector
                   Sample.roi)
          (fresh [success ""])) = Raise ValueError).
Proof. repeat split; vm_compute; reflexivity. Qed.

Lemma C10_padding_disagreement_witness :
  (fst (get_light_status' Sample.scope (fresh [success " 1"])) =
     Return true /\
   fst (has_camera' Sample.scope (fresh [success " 1"])) = Return false) /\
  fst (has_camera' Sample.scope (fresh [success "1"])) =
  fst (get_light_status' Sample.scope (fresh [success "1"])).
Proof.
  split.
  - apply (proj1 (@C10_padding_disagreement Sample.enums Sample.scope
                    (fresh [success " 1"]) (success " 1") []
                    eq_refl eq_refl) " " "").
    + reflexivity.
    + reflexivity.
    + left. discriminate.
    + reflexivity.
  - apply (proj2 (@C10_padding_disagreement Sample.enums Sample.scope
                    (fresh [success "1"]) (success "1") []
                    eq_refl eq_refl)).
    reflexivity.
Defined.

(** *** Further properties at concrete calls *)

Lemma X2_calls_in_sequence_witness :
  sent (session (enums := Sample.enums) (lib := Sample.library)
          [SwitchAllLights' true; HasCamera' Sample.scope]
          (fresh [success "1"; success "0"])) =
    ["vis:switch_all_lights True"; "vis:has_camera scope"] /\
  incoming (session (enums := Sample.enums) (lib := Sample.library)
              [SwitchAllLights' true; HasCamera' Sample.scope]
              (fresh [success "1"; success "0"])) = [success "0"] /\
  reads (session (enums := Sample.enums) (lib := Sample.library)
           [SwitchAllLights' true; HasCamera' Sample.scope]
           (fresh [success "1"; success "0"])) = 1%nat.
Proof.
  destruct (@X2_calls_in_sequence Sample.enums Sample.library
              [SwitchAllLights' true; HasCamera' Sample.scope]
              (fresh [success "1"; success "0"])) as [Hsent Hrest].
  split; [exact Hsent|].
  apply Hrest. cbn. lia.
Defined.

Lemma X3_float_tuples_witness :
  fst (invoke' (FindPattern' "pad" (PyInt 70) 0 Sample.center_of_roi)
         (fresh [success "1.5,2,3,4,more"])) =
    Return (RFloats [lit "1.5"; lit "2"; lit "3"; lit "4"]) /\
  fst (invoke' (FindPattern' "pad" (PyInt 70) 0 Sample.center_of_roi)
         (fresh [success "1.5,2"])) = Raise IndexError /\
  fst (invoke' (FindPattern' "pad" (PyInt 70) 0 Sample.center_of_roi)
         (fresh [success "1.5,x,3,4"])) = Raise ValueError.
Proof.
  split; [|split].
  - apply (proj1 (@X3_float_tuples Sample.enums Sample.library
                    (FindPattern' "pad" (PyInt 70) 0 Sample.center_of_roi)
                    4%nat (fresh [success "1.5,2,3,4,more"])
                    (success "1.5,2,3,4,more") [] eq_refl eq_refl eq_refl)).
    + reflexivity.
    + intros [|[|[|[|i]]]] x Hx; try discriminate Hx;
        injection Hx as <-; eexists; split; reflexivity.
  - apply (proj1 (proj2 (@X3_float_tuples Sample.enums Sample.library
                    (FindPattern' "pad" (PyInt 70) 0 Sample.center_of_roi)
                    4%nat (fresh [success "1.5,2"])
                    (success "1.5,2") [] eq_refl eq_refl eq_refl))).
    + cbn. lia.
    + intros s [<-|[<-|[]]]; eexists; reflexivity.
  - apply (proj2 (proj2 (@X3_float_tuples Sample.enums Sample.library
                    (FindPattern' "pad" (PyInt 70) 0 Sample.center_of_roi)
                    4%nat (fresh [success "1.5,x,3,4"])
                    (success "1.5,x,3,4") [] eq_refl eq_refl eq_refl))
             1%nat "x").
    + lia.
    + reflexivity.
    + reflexivity.
    + intros [|j] t Hj Ht; [|lia]. injection Ht as <-.
      eexists; reflexivity.
Defined.

Lemma X4_detect_probetips_entries_witness :
  exists tips,
    fst (detect_probetips' Sample.scope Sample.probe_detector Sample.roi
           (fresh [success "10 20 5 5 0.9,1 2 3 4 0.5 7"])) = Return tips /\
    length tips = 2%nat.
Proof.
  destruct (@X4_detect_probetips_entries Sample.enums Sample.scope
              Sample.probe_detector Sample.roi
              (fresh [success "10 20 5 5 0.9,1 2 3 4 0.5 7"])
              (success "10 20 5 5 0.9,1 2 3 4 0.5 7") []
              eq_refl eq_refl eq_refl) as (tips & Hret & Hlen & _).
  exists tips. split; [exact Hret | exact Hlen].
Defined.

Lemma X5_detect_probetips_all_or_nothing_witness :
  fst (detect_probetips' Sample.scope Sample.probe_detector Sample.roi
         (fresh [success "10 20 5 5 0.9,1 2 3"])) = Raise IndexError \/
  fst (detect_probetips' Sample.scope Sample.probe_detector Sample.roi
         (fresh [success "10 20 5 5 0.9,1 2 3"])) = Raise ValueError.
Proof.
  apply (proj2 (@X5_detect_probetips_all_or_nothing Sample.enums Sample.scope
                  Sample.probe_detector Sample.roi
                  (fresh [success "10 20 5 5 0.9,1 2 3"])
                  (success "10 20 5 5 0.9,1 2 3") [] eq_refl eq_refl)).
  reflexivity.
Defined.

Lemma X6_auto_focus_witness :
  fst (auto_focus' Sample.focus (fresh [success "12.5,z"])) =
    Return (lit "12.5", Sample.axis_z) /\
  fst (auto_focus' Sample.focus (fresh [success "12.5,q"])) =
    Raise KeyError /\
  fst (auto_focus' Sample.focus (fresh [success "12.5"])) =
    Raise IndexError /\
  fst (auto_focus' Sample.focus (fresh [success "high,z"])) =
    Raise ValueError.
Proof.
  split; [|split; [|split]].
  - apply (proj1 (@X6_auto_focus Sample.enums Sample.focus
                    (fresh [success "12.5,z"]) (success "12.5,z") []
                    eq_refl eq_refl) "12.5" "z" "Z" [] (lit "12.5"));
      reflexivity.
  - apply (proj1 (@X6_auto_focus Sample.enums Sample.focus
                    (fresh [success "12.5,q"]) (success "12.5,q") []
                    eq_refl eq_refl) "12.5" "q" "Q" [] (lit "12.5"));
      reflexivity.
  - apply (proj1 (proj2 (@X6_auto_focus Sample.enums Sample.focus
                           (fresh [success "12.5"]) (success "12.5") []
                           eq_refl eq_refl)) "12.5" (lit "12.5"));
      reflexivity.
  - apply (proj2 (proj2 (@X6_auto_focus Sample.enums Sample.focus
                           (fresh [success "high,z"]) (success "high,z") []
                           eq_refl eq_refl)) "high" ["z"]);
      reflexivity.
Defined.

Lemma X7_snap_image_no_partial_write_witness :
  (fst (snap_image' "tip.jpg" Sample.camera_raw Sample.local
          (fresh [failure "no camera"])) =
     Raise (ProberException "no camera") /\
   files (snd (snap_image' "tip.jpg" Sample.camera_raw Sample.local
                 (fresh [failure "no camera"]))) = ∅) /\
  (fst (snap_image' "tip.jpg" Sample.camera_raw Sample.local
          (fresh [success "%%%"])) = Raise Base64Error /\
   files (snd (snap_image' "tip.jpg" Sample.camera_raw Sample.local
                 (fresh [success "%%%"]))) = ∅) /\
  (fst (snap_image' "tip.jpg" Sample.camera_raw Sample.local
          (mkWorld [success "aGk="] [] ∅ (fun _ => false))) =
     Raise OSError /\
   files (snd (snap_image' "tip.jpg" Sample.camera_raw Sample.local
                 (mkWorld [success "aGk="] [] ∅ (fun _ => false)))) = ∅).
Proof.
  split; [|split].
  - apply (proj1 (@X7_snap_image_no_partial_write Sample.enums
                    Sample.library "tip.jpg" Sample.camera_raw
                    (fresh [failure "no camera"]) (failure "no camera") []
                    eq_refl)).
    reflexivity.
  - apply (proj1 (proj2 (@X7_snap_image_no_partial_write Sample.enums
                    Sample.library "tip.jpg" Sample.camera_raw
                    (fresh [success "%%%"]) (success "%%%") []
                    eq_refl)));
      reflexivity.
  - apply (proj2 (proj2 (@X7_snap_image_no_partial_write Sample.enums
                    Sample.library "tip.jpg" Sample.camera_raw
                    (mkWorld [success "aGk="] [] ∅ (fun _ => false))
                    (success "aGk=") [] eq_refl))
             eq_refl eq_refl [Byte.x68; Byte.x69]).
    reflexivity.
Defined.

Lemma X8_files_frame_witness :
  files (snd (invoke' (SnapImage' "tip.jpg" Sample.camera_raw Sample.local)
                (mkWorld [success "aGk="] []
                   (<["pad.jpg" := [Byte.x01]]> ∅) (fun _ => true))))
    !! "pad.jpg" = Some [Byte.x01].
Proof.
  etransitivity.
  - apply (@X8_files_frame Sample.enums Sample.library
             (SnapImage' "tip.jpg" Sample.camera_raw Sample.local)
             (mkWorld [success "aGk="] []
                (<["pad.jpg" := [Byte.x01]]> ∅) (fun _ => true))
             "pad.jpg").
    intros Heq. discriminate Heq.
  - reflexivity.
Defined.

Lemma X9_domain_error_iff_failure_witness :
  fst (invoke' (AlignDie' (PyInt 1)) (fresh [failure "no wafer"])) =
    Raise (ProberException "no wafer") /\
  fst (invoke' (AlignDie' (PyInt 1)) (fresh [success "no wafer"])) <>
    Raise (ProberException "no wafer").
Proof.
  split.
  - apply (proj2 (@X9_domain_error_iff_failure Sample.enums Sample.library
                    (AlignDie' (PyInt 1)) (fresh [failure "no wafer"])
                    (failure "no wafer") [] "no wafer" eq_refl eq_refl)).
    split; reflexivity.
  - intros Hraise.
    apply (proj1 (@X9_domain_error_iff_failure Sample.enums Sample.library
                    (AlignDie' (PyInt 1)) (fresh [success "no wafer"])
                    (success "no wafer") [] "no wafer" eq_refl eq_refl))
      in Hraise.
    destruct Hraise as [Hok _]. discriminate Hok.
Defined.

Lemma X10_truth_of_a_payload_witness :
  exists b1 b2 : bool,
    fst (has_camera' Sample.scope (fresh [success "true"])) = Return b1 /\
    fst (get_light_status' Sample.scope (fresh [success "true"])) =
      Return b2 /\
    (b1 = true <-> "true" = "1") /\
    (b2 = true <->
     exists l t, all_space l = true /\ all_space t = true /\
                 "true" = l +:+ "1" +:+ t).
Proof.
  exact (@X10_truth_of_a_payload Sample.enums Sample.scope
           (fresh [success "true"]) (success "true") [] eq_refl eq_refl).
Defined.

Lemma X11_get_lens_zoom_level_witness :
  fst (get_lens_zoom_level (fresh [success (" 2.5" +:+ String "010" "")])) =
    Return (lit "2.5").
Proof.
  apply (X11_get_lens_zoom_level
           (fresh [success (" 2.5" +:+ String "010" "")])
           (success (" 2.5" +:+ String "010" "")) []
           " " "2.5" (String "010" ""));
    reflexivity.
Defined.

End Properties.
